(** * ChirpStack LoRaWAN integration: the configuration and options flows

    A shallow embedding of [custom_components/chirp/config_flow.py]:
    the unique-id generator, the four steps of [ChirpConfigFlow] and the
    single step of [ChirpOptionsFlow], followed by the properties of the
    provisioning state machine that the design document states. *)

From Stdlib Require Import ZArith List Ascii String Lia.
From stdpp Require Import base decidable countable gmap strings list fin_maps pretty.

Local Open Scope Z_scope.

(** ** Constants of [const.py] *)

(** Modelled from the spec: [const.py] is not among the sources.  The
    [CONF_*] constants are only ever used as dictionary keys (the field
    names of the forms and of the stored record), so they are modelled as
    an enumeration: one key per constant, distinct constants being distinct
    keys. *)
Inductive conf_key : Set :=
  | CONF_API_SERVER | CONF_API_PORT | CONF_API_KEY
  | CONF_TENANT | CONF_APPLICATION | CONF_APPLICATION_ID
  | CONF_MQTT_SERVER | CONF_MQTT_PORT | CONF_MQTT_USER | CONF_MQTT_PWD
  | CONF_MQTT_DISC | CONF_MQTT_CHIRPSTACK_PREFIX
  | CONF_OPTIONS_START_DELAY | CONF_OPTIONS_RESTORE_AGE
  | CONF_OPTIONS_DEBUG_PAYLOAD | CONF_OPTIONS_LOG_LEVEL
  | CONF_OPTIONS_ONLINE_PER_DEVICE | CONF_OPTIONS_EXPIRE_AFTER.

(** Modelled from the spec: the named error conditions of [const.py] that
    the flows put in an error slot or give as abort reason. *)
Inductive error_code : Set :=
  | CONF_CHIRP_NO_TENANTS
  | CONF_CHIRP_SERVER_RESERVED
  | CONF_ERROR_CHIRP_CONN_FAILED
  | CONF_ERROR_MQTT_CONN_FAILED
  | CONF_ERROR_NO_APPS.

#[global] Instance conf_key_eq_dec : EqDecision conf_key.
Proof. solve_decision. Defined.

#[global] Instance error_code_eq_dec : EqDecision error_code.
Proof. solve_decision. Defined.

Definition conf_key_index (k : conf_key) : nat :=
  match k with
  | CONF_API_SERVER => 0 | CONF_API_PORT => 1 | CONF_API_KEY => 2
  | CONF_TENANT => 3 | CONF_APPLICATION => 4 | CONF_APPLICATION_ID => 5
  | CONF_MQTT_SERVER => 6 | CONF_MQTT_PORT => 7 | CONF_MQTT_USER => 8
  | CONF_MQTT_PWD => 9 | CONF_MQTT_DISC => 10
  | CONF_MQTT_CHIRPSTACK_PREFIX => 11
  | CONF_OPTIONS_START_DELAY => 12 | CONF_OPTIONS_RESTORE_AGE => 13
  | CONF_OPTIONS_DEBUG_PAYLOAD => 14 | CONF_OPTIONS_LOG_LEVEL => 15
  | CONF_OPTIONS_ONLINE_PER_DEVICE => 16 | CONF_OPTIONS_EXPIRE_AFTER => 17
  end%nat.

Definition all_conf_keys : list conf_key :=
  [ CONF_API_SERVER; CONF_API_PORT; CONF_API_KEY;
    CONF_TENANT; CONF_APPLICATION; CONF_APPLICATION_ID;
    CONF_MQTT_SERVER; CONF_MQTT_PORT; CONF_MQTT_USER; CONF_MQTT_PWD;
    CONF_MQTT_DISC; CONF_MQTT_CHIRPSTACK_PREFIX;
    CONF_OPTIONS_START_DELAY; CONF_OPTIONS_RESTORE_AGE;
    CONF_OPTIONS_DEBUG_PAYLOAD; CONF_OPTIONS_LOG_LEVEL;
    CONF_OPTIONS_ONLINE_PER_DEVICE; CONF_OPTIONS_EXPIRE_AFTER ].

#[global] Instance conf_key_countable : Countable conf_key.
Proof.
  refine (inj_countable conf_key_index (fun n => all_conf_keys !! n) _).
  intros []; reflexivity.
Defined.

(** ** Python values and dictionaries *)

(** The values that the forms of this integration put in a dictionary:
    [str], [int] and [bool].  A Python [str] is represented by the bytes of
    its UTF-8 encoding; concatenating two [str] concatenates the encodings,
    so [s.encode('utf-8')] is the passage to the list of bytes. *)
Inductive value : Set :=
  | VStr (s : string)
  | VInt (n : Z)
  | VBool (b : bool).

#[global] Instance value_eq_dec : EqDecision value.
Proof. solve_decision. Defined.

(** [dict]: a dictionary keyed by the [CONF_*] constants. *)
Abbreviation dict := (gmap conf_key value).

(** [listing]: what the directory returns, display name to identifier. *)
Abbreviation listing := (gmap string string).

(** [str(v)] *)
Definition py_str (v : value) : string :=
  match v with
  | VStr s => s
  | VInt n => pretty n
  | VBool true => "True"
  | VBool false => "False"
  end.

(** [bool] is a subclass of [int] in Python: [True == 1] and [False == 0]. *)
Definition bool_to_Z (b : bool) : Z := if b then 1 else 0.

(** [v1 == v2] on values. *)
Definition py_eqb (v1 v2 : value) : bool :=
  match v1, v2 with
  | VStr s1, VStr s2 => bool_decide (s1 = s2)
  | VInt n1, VInt n2 => bool_decide (n1 = n2)
  | VBool b1, VBool b2 => bool_decide (b1 = b2)
  | VInt n, VBool b | VBool b, VInt n => bool_decide (n = bool_to_Z b)
  | _, _ => false
  end.

(** [d1.get(k) != d2.get(k)]: a missing key reads as [None], which is equal
    to itself and to nothing else. *)
Definition get_ne (d1 d2 : dict) (k : conf_key) : bool :=
  match d1 !! k, d2 !! k with
  | Some v1, Some v2 => negb (py_eqb v1 v2)
  | None, None => false
  | _, _ => true
  end.

(** [d.get(k, default)] *)
Definition get_default (d : dict) (k : conf_key) (dflt : value) : value :=
  default dflt (d !! k).

(** ** Exceptions and results *)

(** The exceptions that can be raised while a step runs; all of them are
    subclasses of [Exception].  [ExternalError] stands for whatever a call
    into the directory client or the broker client raises. *)
Inductive exn : Set :=
  | KeyError (k : conf_key)
  | KeyError_name (v : value)
  | TypeError
  | AttributeError
  | AbortFlow (reason : string)
  | ExternalError (detail : string).

Inductive res (A : Type) : Type :=
  | Ok (a : A)
  | Raise (e : exn).
Arguments Ok {A} a.
Arguments Raise {A} e.

Definition res_bind {A B} (r : res A) (f : A -> res B) : res B :=
  match r with
  | Ok a => f a
  | Raise e => Raise e
  end.

(** [d[k]] *)
Definition getitem (d : dict) (k : conf_key) : res value :=
  match d !! k with
  | Some v => Ok v
  | None => Raise (KeyError k)
  end.

(** ** [hashlib.md5] (RFC 1321) on lists of bytes *)

Module hashlib.

Definition mask32 : Z := 0xffffffff.
Definition add32 (x y : Z) : Z := Z.land (x + y) mask32.
Definition not32 (x : Z) : Z := Z.lxor x mask32.
Definition leftrotate (x c : Z) : Z :=
  Z.land (Z.lor (Z.shiftl x c) (Z.shiftr x (32 - c))) mask32.

Definition s_table : list Z :=
  [ 7; 12; 17; 22; 7; 12; 17; 22; 7; 12; 17; 22; 7; 12; 17; 22;
    5; 9; 14; 20; 5; 9; 14; 20; 5; 9; 14; 20; 5; 9; 14; 20;
    4; 11; 16; 23; 4; 11; 16; 23; 4; 11; 16; 23; 4; 11; 16; 23;
    6; 10; 15; 21; 6; 10; 15; 21; 6; 10; 15; 21; 6; 10; 15; 21 ].

Definition K_table : list Z :=
  [ 0xd76aa478; 0xe8c7b756; 0x242070db; 0xc1bdceee;
    0xf57c0faf; 0x4787c62a; 0xa8304613; 0xfd469501;
    0x698098d8; 0x8b44f7af; 0xffff5bb1; 0x895cd7be;
    0x6b901122; 0xfd987193; 0xa679438e; 0x49b40821;
    0xf61e2562; 0xc040b340; 0x265e5a51; 0xe9b6c7aa;
    0xd62f105d; 0x02441453; 0xd8a1e681; 0xe7d3fbc8;
    0x21e1cde6; 0xc33707d6; 0xf4d50d87; 0x455a14ed;
    0xa9e3e905; 0xfcefa3f8; 0x676f02d9; 0x8d2a4c8a;
    0xfffa3942; 0x8771f681; 0x6d9d6122; 0xfde5380c;
    0xa4beea44; 0x4bdecfa9; 0xf6bb4b60; 0xbebfbc70;
    0x289b7ec6; 0xeaa127fa; 0xd4ef3085; 0x04881d05;
    0xd9d4d039; 0xe6db99e5; 0x1fa27cf8; 0xc4ac5665;
    0xf4292244; 0x432aff97; 0xab9423a7; 0xfc93a039;
    0x655b59c3; 0x8f0ccc92; 0xffeff47d; 0x85845dd1;
    0x6fa87e4f; 0xfe2ce6e0; 0xa3014314; 0x4e0811a1;
    0xf7537e82; 0xbd3af235; 0x2ad7d2bb; 0xeb86d391 ].

(** The [n] low bytes of [x], least significant first. *)
Fixpoint le_bytes (n : nat) (x : Z) : list Z :=
  match n with
  | O => []
  | S n' => Z.land x 0xff :: le_bytes n' (Z.shiftr x 8)
  end.

(** The number whose little-endian bytes are [bs]. *)
Fixpoint le_word (bs : list Z) : Z :=
  match bs with
  | [] => 0
  | b :: bs' => Z.lor b (Z.shiftl (le_word bs') 8)
  end.

(** A one bit, zero bits up to 56 bytes modulo 64, then the length of
    the message in bits on 64 bits. *)
Definition padding (len : Z) : list Z :=
  0x80 :: repeat 0 (Z.to_nat ((55 - len) mod 64))
       ++ le_bytes 8 (8 * len).

Fixpoint words (n : nat) (bs : list Z) : list Z :=
  match n with
  | O => []
  | S n' => le_word (firstn 4 bs) :: words n' (skipn 4 bs)
  end.

Definition round (M : list Z) (st : Z * Z * Z * Z) (i : nat)
  : Z * Z * Z * Z :=
  let '(A, B, C, D) := st in
  let '(F, g) :=
    if (i <? 16)%nat then
      (Z.lor (Z.land B C) (Z.land (not32 B) D), i)
    else if (i <? 32)%nat then
      (Z.lor (Z.land D B) (Z.land (not32 D) C), ((5 * i + 1) mod 16)%nat)
    else if (i <? 48)%nat then
      (Z.lxor (Z.lxor B C) D, ((3 * i + 5) mod 16)%nat)
    else
      (Z.lxor C (Z.lor B (not32 D)), ((7 * i) mod 16)%nat) in
  let F' := add32 (add32 (add32 F A) (nth i K_table 0)) (nth g M 0) in
  (D, add32 B (leftrotate F' (nth i s_table 0)), B, C).

Definition process_chunk (h : Z * Z * Z * Z) (chunk : list Z)
  : Z * Z * Z * Z :=
  let M := words 16 chunk in
  let '(A, B, C, D) := fold_left (round M) (seq 0 64) h in
  let '(a0, b0, c0, d0) := h in
  (add32 a0 A, add32 b0 B, add32 c0 C, add32 d0 D).

Fixpoint process (n : nat) (h : Z * Z * Z * Z) (bs : list Z)
  : Z * Z * Z * Z :=
  match n with
  | O => h
  | S n' => process n' (process_chunk h (firstn 64 bs)) (skipn 64 bs)
  end.

(** [hashlib.md5(msg).digest()]: sixteen bytes. *)
Definition md5 (msg : list Z) : list Z :=
  let padded := msg ++ padding (Z.of_nat (length msg)) in
  let '(a, b, c, d) :=
    process (length padded / 64)%nat
            (0x67452301, 0xefcdab89, 0x98badcfe, 0x10325476) padded in
  le_bytes 4 a ++ le_bytes 4 b ++ le_bytes 4 c ++ le_bytes 4 d.

Definition hex_digit (n : Z) : ascii :=
  nth (Z.to_nat n) (list_ascii_of_string "0123456789abcdef") "0"%char.

Definition hex_byte (b : Z) : list ascii :=
  [hex_digit (b / 16); hex_digit (b mod 16)].

(** [.hexdigest()]: two lower-case hexadecimal digits per byte. *)
Definition hexdigest (bs : list Z) : string :=
  string_of_list_ascii (flat_map hex_byte bs).

End hashlib.

(** [s.encode('utf-8')] *)
Definition encode (s : string) : list Z :=
  map (fun a => Z.of_N (N_of_ascii a)) (list_ascii_of_string s).

(** [sep.join(l)] with the empty separator. *)
Definition join (l : list string) : string :=
  fold_right String.append EmptyString l.

(** ** [generate_unique_id] *)

(** The tuple of keys that [generate_unique_id] iterates over. *)
Definition id_keys : list conf_key :=
  [ CONF_API_SERVER; CONF_API_PORT; CONF_TENANT; CONF_APPLICATION;
    CONF_MQTT_SERVER; CONF_MQTT_PORT; CONF_MQTT_DISC;
    CONF_MQTT_CHIRPSTACK_PREFIX ].

(** [[str(configuration[id_key]) for id_key in keys]]: the first missing
    key raises [KeyError]. *)
Fixpoint str_fields (configuration : dict) (keys : list conf_key)
  : res (list string) :=
  match keys with
  | [] => Ok []
  | id_key :: keys' =>
      match getitem configuration id_key with
      | Raise e => Raise e
      | Ok v =>
          match str_fields configuration keys' with
          | Raise e => Raise e
          | Ok l => Ok (py_str v :: l)
          end
      end
  end.

(** The string that is hashed. *)
Definition u_id (configuration : dict) : res string :=
  match str_fields configuration id_keys with
  | Raise e => Raise e
  | Ok l => Ok (join l)
  end.

Definition generate_unique_id (configuration : dict) : res string :=
  match u_id configuration with
  | Raise e => Raise e
  | Ok u => Ok (hashlib.hexdigest (hashlib.md5 (encode u)))
  end.

(** ** The flows' surroundings *)

(** A call into one of the two collaborators, in the order they are made. *)
Inductive event : Type :=
  | Call_ChirpGrpc (config : dict)
  | Call_get_chirp_tenants
  | Call_get_tenant_applications (tenant_id : string)
  | Call_ChirpToHA (config : dict)
  | Call_mqtt_close
  | Call_grpc_close.

(** The directory client [ChirpGrpc] of [grpc.py] and the broker client
    [ChirpToHA] of [mqtt.py] are collaborators of the flows: each call
    either returns or raises.  A [ChirpGrpc] object is represented by the
    configuration it was constructed from; the configuration flow goes on
    to update that dictionary in place, and whatever the client makes of
    it later is part of the answers of the world. *)
Record World : Type := {
  (** [ChirpGrpc(config, None)] *)
  ChirpGrpc : dict -> res unit;
  (** [channel.get_chirp_tenants()] *)
  get_chirp_tenants : dict -> res listing;
  (** [channel.get_tenant_applications(tenant_id)] *)
  get_tenant_applications : dict -> string -> res listing;
  (** [ChirpToHA(config, None, None, channel, connectivity_check_only=True)] *)
  ChirpToHA : dict -> option dict -> res unit
}.

(** The [DEFAULT_*] constants of [const.py], whose values the flows only
    pass on. *)
Record Constants : Type := {
  DEFAULT_NAME : string;
  DEFAULT_API_SERVER : value;
  DEFAULT_API_PORT : value;
  DEFAULT_API_KEY : value;
  DEFAULT_TENANT : value;
  DEFAULT_APPLICATION : value;
  DEFAULT_MQTT_SERVER : value;
  DEFAULT_MQTT_PORT : value;
  DEFAULT_MQTT_USER : value;
  DEFAULT_MQTT_PWD : value;
  DEFAULT_MQTT_DISC : value;
  DEFAULT_MQTT_CHIRPSTACK_PREFIX : value;
  DEFAULT_OPTIONS_START_DELAY : value;
  DEFAULT_OPTIONS_RESTORE_AGE : value;
  DEFAULT_OPTIONS_DEBUG_PAYLOAD : value;
  DEFAULT_OPTIONS_LOG_LEVEL : value;
  DEFAULT_OPTIONS_ONLINE_PER_DEVICE : value;
  DEFAULT_OPTIONS_EXPIRE_AFTER : value
}.

(** A stored configuration entry of Home Assistant. *)
Record ConfigEntry : Type := {
  unique_id : option string;
  data : dict;
  options : dict
}.

(** What a [vol.Schema] says about one field.  [select_selector] is a
    [SelectSelector] over a list written in the source; [select_name] is a
    [SelectSelector] over the names of a listing of the directory. *)
Inductive validator : Type :=
  | str_min_length (n : nat)
  | int_range (lo hi : Z)
  | coerce_int_range (lo hi : Z)
  | any_str
  | any_bool
  | select_selector (choices : list string)
  | select_name (names : gset string).

Record field : Type := {
  field_key : conf_key;
  field_required : bool;
  field_default : value;
  field_validator : validator
}.

Inductive step_id : Set :=
  | step_user | step_select_tenant | step_select_application
  | step_configure_mqtt | step_init.

(** The three kinds of [FlowResult] that the steps produce. *)
Inductive FlowResult : Type :=
  | async_show_form (id : step_id) (data_schema : list field)
                    (errors : gmap conf_key error_code)
  | async_abort (reason : error_code)
  | async_create_entry (title : string) (entry_data : dict)
                       (entry_options : dict).

(** The instance attributes of [ChirpConfigFlow], the unique id that
    [async_set_unique_id] records in the flow's context, and the calls made
    so far. *)
Record ChirpConfigFlow : Type := {
  _grpc_channel : option dict;
  _tenants_list : option listing;
  _apps_list : option listing;
  _input : option dict;
  _tenant_id : option string;
  _app_id : option string;
  context_unique_id : option string;
  calls : list event
}.

Definition new_ChirpConfigFlow : ChirpConfigFlow :=
  {| _grpc_channel := None; _tenants_list := None; _apps_list := None;
     _input := None; _tenant_id := None; _app_id := None;
     context_unique_id := None; calls := [] |}.

(** [ChirpOptionsFlow]: the entry being edited and the calls made so far. *)
Record ChirpOptionsFlow : Type := {
  config_entry : ConfigEntry;
  options_calls : list event
}.

(** ** Steps as state transformers that may raise *)

Definition M (S A : Type) : Type := S -> S * res A.

Definition ret {S A} (a : A) : M S A := fun s => (s, Ok a).

Definition raise {S A} (e : exn) : M S A := fun s => (s, Raise e).

Definition bind {S A B} (m : M S A) (f : A -> M S B) : M S B :=
  fun s =>
    match m s with
    | (s', Ok a) => f a s'
    | (s', Raise e) => (s', Raise e)
    end.

Notation "x <- m ;; k" := (bind m (fun x => k))
  (at level 100, m at next level, right associativity).
Notation "m ;;; k" := (bind m (fun _ => k))
  (at level 100, right associativity).

Definition lift {S A} (r : res A) : M S A := fun s => (s, r).

Definition gets {S A} (f : S -> A) : M S A := fun s => (s, Ok (f s)).

Definition modify {S} (f : S -> S) : M S unit := fun s => (f s, Ok tt).

(** [try: body except Exception as error: handler]; attributes assigned
    before the exception keep their new value. *)
Definition try_except {S A} (body : M S A) (handler : exn -> M S A) : M S A :=
  fun s =>
    match body s with
    | (s', Raise error) => handler error s'
    | r => r
    end.

(** [try: body except data_entry_flow.AbortFlow: handler] *)
Definition try_except_AbortFlow {S A} (body : M S A) (handler : M S A)
  : M S A :=
  fun s =>
    match body s with
    | (s', Raise (AbortFlow _)) => handler s'
    | r => r
    end.

(** How the body of an [if user_input is not None:] block ends: with a
    [return], or by falling through to the form with the errors set. *)
Inductive block_end : Type :=
  | Return (r : FlowResult)
  | Fall_through (errors : gmap conf_key error_code).

(** [not user_input] *)
Definition not_ (user_input : option dict) : bool :=
  match user_input with
  | None => true
  | Some d => bool_decide (d = ∅)
  end.

(** [DEFAULT if not user_input else user_input[k]] *)
Definition default_or_item {S} (dflt : value) (user_input : option dict)
    (k : conf_key) : M S value :=
  match user_input with
  | Some d => if not_ user_input then ret dflt else lift (getitem d k)
  | None => ret dflt
  end.

(** [list(l.keys())].  A [listing] does not keep the order in which the
    directory returned the names, so this list is in the order of the map;
    the steps use its length and, when it has one element, that element,
    neither of which depends on the order.  The choices of a selection
    form, where Python's order would show, are given as a set
    ([select_name]). *)
Definition keys (l : listing) : list string := (map_to_list l).*1.

(** [l[name]], for the name that a form gave. *)
Definition listing_item (l : listing) (name : value) : res string :=
  match name with
  | VStr n =>
      match l !! n with
      | Some i => Ok i
      | None => Raise (KeyError_name name)
      end
  | _ => Raise (KeyError_name name)
  end.

Definition set_grpc_channel (v : option dict) (s : ChirpConfigFlow)
  : ChirpConfigFlow :=
  {| _grpc_channel := v; _tenants_list := _tenants_list s;
     _apps_list := _apps_list s; _input := _input s;
     _tenant_id := _tenant_id s; _app_id := _app_id s;
     context_unique_id := context_unique_id s; calls := calls s |}.

Definition set_tenants_list (v : option listing) (s : ChirpConfigFlow)
  : ChirpConfigFlow :=
  {| _grpc_channel := _grpc_channel s; _tenants_list := v;
     _apps_list := _apps_list s; _input := _input s;
     _tenant_id := _tenant_id s; _app_id := _app_id s;
     context_unique_id := context_unique_id s; calls := calls s |}.

Definition set_apps_list (v : option listing) (s : ChirpConfigFlow)
  : ChirpConfigFlow :=
  {| _grpc_channel := _grpc_channel s; _tenants_list := _tenants_list s;
     _apps_list := v; _input := _input s;
     _tenant_id := _tenant_id s; _app_id := _app_id s;
     context_unique_id := context_unique_id s; calls := calls s |}.

Definition set_input (v : option dict) (s : ChirpConfigFlow)
  : ChirpConfigFlow :=
  {| _grpc_channel := _grpc_channel s; _tenants_list := _tenants_list s;
     _apps_list := _apps_list s; _input := v;
     _tenant_id := _tenant_id s; _app_id := _app_id s;
     context_unique_id := context_unique_id s; calls := calls s |}.

Definition set_tenant_id (v : option string) (s : ChirpConfigFlow)
  : ChirpConfigFlow :=
  {| _grpc_channel := _grpc_channel s; _tenants_list := _tenants_list s;
     _apps_list := _apps_list s; _input := _input s;
     _tenant_id := v; _app_id := _app_id s;
     context_unique_id := context_unique_id s; calls := calls s |}.

Definition set_app_id (v : option string) (s : ChirpConfigFlow)
  : ChirpConfigFlow :=
  {| _grpc_channel := _grpc_channel s; _tenants_list := _tenants_list s;
     _apps_list := _apps_list s; _input := _input s;
     _tenant_id := _tenant_id s; _app_id := v;
     context_unique_id := context_unique_id s; calls := calls s |}.

Definition set_context_unique_id (v : option string) (s : ChirpConfigFlow)
  : ChirpConfigFlow :=
  {| _grpc_channel := _grpc_channel s; _tenants_list := _tenants_list s;
     _apps_list := _apps_list s; _input := _input s;
     _tenant_id := _tenant_id s; _app_id := _app_id s;
     context_unique_id := v; calls := calls s |}.

Definition set_calls (v : list event) (s : ChirpConfigFlow)
  : ChirpConfigFlow :=
  {| _grpc_channel := _grpc_channel s; _tenants_list := _tenants_list s;
     _apps_list := _apps_list s; _input := _input s;
     _tenant_id := _tenant_id s; _app_id := _app_id s;
     context_unique_id := context_unique_id s; calls := v |}.

(** A call made by the configuration flow: noted, then answered. *)
Definition call {A} (ev : event) (answer : res A) : M ChirpConfigFlow A :=
  modify (fun s => set_calls (calls s ++ [ev]) s) ;;; lift answer.

(** A call made by the options flow. *)
Definition options_call {A} (ev : event) (answer : res A)
  : M ChirpOptionsFlow A :=
  modify (fun s => {| config_entry := config_entry s;
                      options_calls := options_calls s ++ [ev] |}) ;;;
  lift answer.

(** ** Home Assistant's side of a flow *)

(** [self.async_set_unique_id(unique_id)] records the id in the flow's
    context (one session at a time: no other flow is in progress). *)
Definition async_set_unique_id (uid : string) : M ChirpConfigFlow unit :=
  modify (set_context_unique_id (Some uid)).

(** Is there an entry with this unique id?  *)
Definition configured (entries : list ConfigEntry) (uid : string) : bool :=
  existsb (fun e => bool_decide (unique_id e = Some uid)) entries.

(** [self._abort_if_unique_id_configured()] raises [AbortFlow] when an
    entry of the domain has the unique id of the flow, and touches no
    entry. *)
Definition _abort_if_unique_id_configured (entries : list ConfigEntry)
  : M ChirpConfigFlow unit :=
  uid <- gets context_unique_id ;;
  match uid with
  | None => ret tt
  | Some u =>
      if configured entries u then raise (AbortFlow "already_configured")
      else ret tt
  end.

(** What the flow manager does with the result of a configuration flow's
    step: [async_create_entry] stores a new entry under the unique id of
    the flow; a form or an abort stores nothing. *)
Definition config_flow_finish (entries : list ConfigEntry)
    (flow : ChirpConfigFlow) (r : res FlowResult) : list ConfigEntry :=
  match r with
  | Ok (async_create_entry _ d o) =>
      entries ++ [ {| unique_id := context_unique_id flow;
                      data := d; options := o |} ]
  | _ => entries
  end.

(** [hass.config_entries.async_update_entry(entry, data=new_data)] *)
Definition async_update_entry (new_data : dict) : M ChirpOptionsFlow unit :=
  modify (fun s =>
    {| config_entry := {| unique_id := unique_id (config_entry s);
                          data := new_data;
                          options := options (config_entry s) |};
       options_calls := options_calls s |}).

(** What the flow manager does with the result of an options flow's step:
    the data of [async_create_entry] become the options of the entry. *)
Definition options_flow_finish (e : ConfigEntry) (r : res FlowResult)
  : ConfigEntry :=
  match r with
  | Ok (async_create_entry _ d _) =>
      {| unique_id := unique_id e; data := data e; options := d |}
  | _ => e
  end.

(** ** [ChirpConfigFlow] *)

Section ConfigFlow.

Variable W : World.
Variable K : Constants.
(** The entries of the domain at the time the step runs. *)
Variable entries : list ConfigEntry.

(** [self._input |= user_input] *)
Definition input_ior (user_input : dict) : M ChirpConfigFlow unit :=
  inp <- gets _input ;;
  match inp with
  | None => raise TypeError
  | Some d => modify (set_input (Some (user_input ∪ d)))
  end.

(** [self._input[k] = v] *)
Definition input_setitem (k : conf_key) (v : value)
  : M ChirpConfigFlow unit :=
  inp <- gets _input ;;
  match inp with
  | None => raise TypeError
  | Some d => modify (set_input (Some (<[k := v]> d)))
  end.

(** Reading [self._input] where a dictionary is needed. *)
Definition self_input : M ChirpConfigFlow dict :=
  inp <- gets _input ;;
  match inp with
  | None => raise TypeError
  | Some d => ret d
  end.

Definition default_options : dict :=
  <[CONF_OPTIONS_EXPIRE_AFTER := DEFAULT_OPTIONS_EXPIRE_AFTER K]>
  (<[CONF_OPTIONS_ONLINE_PER_DEVICE := DEFAULT_OPTIONS_ONLINE_PER_DEVICE K]>
  (<[CONF_OPTIONS_LOG_LEVEL := DEFAULT_OPTIONS_LOG_LEVEL K]>
  (<[CONF_OPTIONS_DEBUG_PAYLOAD := DEFAULT_OPTIONS_DEBUG_PAYLOAD K]>
  (<[CONF_OPTIONS_RESTORE_AGE := DEFAULT_OPTIONS_RESTORE_AGE K]>
  (<[CONF_OPTIONS_START_DELAY := DEFAULT_OPTIONS_START_DELAY K]> ∅))))).

(** The form of [async_step_configure_mqtt]. *)
Definition configure_mqtt_form (user_input : option dict)
    (errors : gmap conf_key error_code) : M ChirpConfigFlow FlowResult :=
  d_server <- default_or_item (DEFAULT_MQTT_SERVER K) user_input
                              CONF_MQTT_SERVER ;;
  d_port <- default_or_item (DEFAULT_MQTT_PORT K) user_input
                            CONF_MQTT_PORT ;;
  d_user <- default_or_item (DEFAULT_MQTT_USER K) user_input
                            CONF_MQTT_USER ;;
  d_pwd <- default_or_item (DEFAULT_MQTT_PWD K) user_input CONF_MQTT_PWD ;;
  d_disc <- default_or_item (DEFAULT_MQTT_DISC K) user_input
                            CONF_MQTT_DISC ;;
  let d_prefix :=
    match user_input with
    | Some d =>
        if not_ user_input then DEFAULT_MQTT_CHIRPSTACK_PREFIX K
        else get_default d CONF_MQTT_CHIRPSTACK_PREFIX
                         (DEFAULT_MQTT_CHIRPSTACK_PREFIX K)
    | None => DEFAULT_MQTT_CHIRPSTACK_PREFIX K
    end in
  ret (async_show_form step_configure_mqtt
    [ {| field_key := CONF_MQTT_SERVER; field_required := true;
         field_default := d_server;
         field_validator := str_min_length 3 |};
      {| field_key := CONF_MQTT_PORT; field_required := true;
         field_default := d_port;
         field_validator := int_range 0 0xffff |};
      {| field_key := CONF_MQTT_USER; field_required := true;
         field_default := d_user;
         field_validator := str_min_length 1 |};
      {| field_key := CONF_MQTT_PWD; field_required := true;
         field_default := d_pwd; field_validator := any_str |};
      {| field_key := CONF_MQTT_DISC; field_required := true;
         field_default := d_disc;
         field_validator := str_min_length 1 |};
      {| field_key := CONF_MQTT_CHIRPSTACK_PREFIX; field_required := false;
         field_default := d_prefix; field_validator := any_str |} ]
    errors).

(** Configure MQTT server and check connection. *)
Definition async_step_configure_mqtt (user_input : option dict)
  : M ChirpConfigFlow FlowResult :=
  e <- match user_input with
       | None => ret (Fall_through ∅)
       | Some ui =>
           input_ior ui ;;;
           try_except
             (input <- self_input ;;
              uid <- lift (generate_unique_id input) ;;
              async_set_unique_id uid ;;;
              reserved <- try_except_AbortFlow
                            (_abort_if_unique_id_configured entries ;;;
                             ret false)
                            (ret true) ;;
              if (reserved : bool) then
                ret (Return (async_abort CONF_CHIRP_SERVER_RESERVED))
              else
                channel <- gets _grpc_channel ;;
                call (Call_ChirpToHA input) (ChirpToHA W input channel) ;;;
                call Call_mqtt_close (Ok tt) ;;;
                ret (Return (async_create_entry (DEFAULT_NAME K) input
                                                default_options)))
             (fun error =>
                (* the arguments of _LOGGER.error *)
                lift (getitem ui CONF_MQTT_SERVER) ;;;
                lift (getitem ui CONF_MQTT_PORT) ;;;
                ret (Fall_through
                       {[CONF_MQTT_SERVER := CONF_ERROR_MQTT_CONN_FAILED]}))
       end ;;
  match e with
  | Return r => ret r
  | Fall_through errors => configure_mqtt_form user_input errors
  end.

(** The form of [async_step_select_application].  Its schema is written
    with two markers for [CONF_APPLICATION]; equal markers are one key of
    the dictionary, which keeps the selector, written last. *)
Definition select_application_form (apps : listing)
    (errors : gmap conf_key error_code) : FlowResult :=
  async_show_form step_select_application
    [ {| field_key := CONF_APPLICATION; field_required := true;
         field_default := DEFAULT_APPLICATION K;
         field_validator := select_name (dom apps) |} ]
    errors.

(** Select application, autoselect if only 1 exists. *)
Definition async_step_select_application (user_input : option dict)
  : M ChirpConfigFlow FlowResult :=
  al <- gets _apps_list ;;
  match al with
  | None => raise AttributeError
  | Some apps =>
      let user_input :=
        if bool_decide (length (keys apps) = 1%nat)
        then Some {[CONF_APPLICATION := VStr (hd EmptyString (keys apps))]}
        else user_input in
      match user_input with
      | Some ui =>
          input_ior ui ;;;
          selected_app <- lift (getitem ui CONF_APPLICATION) ;;
          app_id <- lift (listing_item apps selected_app) ;;
          modify (set_app_id (Some app_id)) ;;;
          input_setitem CONF_APPLICATION_ID (VStr app_id) ;;;
          async_step_configure_mqtt None
      | None => ret (select_application_form apps ∅)
      end
  end.

Definition select_tenant_form (tenants : listing)
    (errors : gmap conf_key error_code) : FlowResult :=
  async_show_form step_select_tenant
    [ {| field_key := CONF_TENANT; field_required := true;
         field_default := DEFAULT_TENANT K;
         field_validator := select_name (dom tenants) |} ]
    errors.

(** [self._grpc_channel.get_tenant_applications(tenant_id)] *)
Definition grpc_get_tenant_applications (tenant_id : string)
  : M ChirpConfigFlow listing :=
  channel <- gets _grpc_channel ;;
  match channel with
  | None => raise AttributeError
  | Some c =>
      call (Call_get_tenant_applications tenant_id)
           (get_tenant_applications W c tenant_id)
  end.

(** Select tenant, autoselect if only 1 exists. *)
Definition async_step_select_tenant (user_input : option dict)
  : M ChirpConfigFlow FlowResult :=
  tl <- gets _tenants_list ;;
  match tl with
  | None => raise AttributeError
  | Some tenants =>
      let user_input :=
        if bool_decide (length (keys tenants) = 1%nat)
        then Some {[CONF_TENANT := VStr (hd EmptyString (keys tenants))]}
        else user_input in
      e <- match user_input with
           | None => ret (Fall_through ∅)
           | Some ui =>
               input_ior ui ;;;
               selected_tenant <- lift (getitem ui CONF_TENANT) ;;
               tenant_id <- lift (listing_item tenants selected_tenant) ;;
               modify (set_tenant_id (Some tenant_id)) ;;;
               apps <- grpc_get_tenant_applications tenant_id ;;
               modify (set_apps_list (Some apps)) ;;;
               if bool_decide (apps = ∅) then
                 ret (Fall_through {[CONF_API_SERVER := CONF_ERROR_NO_APPS]})
               else
                 r <- async_step_select_application None ;;
                 ret (Return r)
           end ;;
      match e with
      | Return r => ret r
      | Fall_through errors => ret (select_tenant_form tenants errors)
      end
  end.

(** The form of [async_step_user]. *)
Definition user_form (user_input : option dict)
    (errors : gmap conf_key error_code) : M ChirpConfigFlow FlowResult :=
  d_server <- default_or_item (DEFAULT_API_SERVER K) user_input
                              CONF_API_SERVER ;;
  d_port <- default_or_item (DEFAULT_API_PORT K) user_input CONF_API_PORT ;;
  d_key <- default_or_item (DEFAULT_API_KEY K) user_input CONF_API_KEY ;;
  ret (async_show_form step_user
    [ {| field_key := CONF_API_SERVER; field_required := true;
         field_default := d_server;
         field_validator := str_min_length 3 |};
      {| field_key := CONF_API_PORT; field_required := true;
         field_default := d_port;
         field_validator := int_range 0 0xffff |};
      {| field_key := CONF_API_KEY; field_required := true;
         field_default := d_key;
         field_validator := str_min_length 10 |} ]
    errors).

(** Run initial configuration step, check grpc api server access,
    proceed to tenant/application selection.  The first statement of the
    [try] block, [user_input[CONF_APPLICATION_ID] = ""], cannot raise and
    changes the dictionary that the handler and the form read. *)
Definition async_step_user (user_input : option dict)
  : M ChirpConfigFlow FlowResult :=
  let user_input := (insert CONF_APPLICATION_ID (VStr "")) <$> user_input in
  e <- match user_input with
       | None => ret (Fall_through ∅)
       | Some ui =>
           try_except
             (call (Call_ChirpGrpc ui) (ChirpGrpc W ui) ;;;
              modify (set_grpc_channel (Some ui)) ;;;
              tenants <- call Call_get_chirp_tenants
                              (get_chirp_tenants W ui) ;;
              modify (set_tenants_list (Some tenants)) ;;;
              if bool_decide (tenants = ∅) then
                ret (Fall_through
                       {[CONF_API_SERVER := CONF_CHIRP_NO_TENANTS]})
              else
                modify (set_input (Some ui)) ;;;
                r <- async_step_select_tenant None ;;
                ret (Return r))
             (fun error =>
                (* the arguments of _LOGGER.error *)
                lift (getitem ui CONF_API_SERVER) ;;;
                lift (getitem ui CONF_API_PORT) ;;;
                lift (getitem ui CONF_API_KEY) ;;;
                ret (Fall_through
                       {[CONF_API_SERVER := CONF_ERROR_CHIRP_CONN_FAILED]}))
       end ;;
  match e with
  | Return r => ret r
  | Fall_through errors => user_form user_input errors
  end.

End ConfigFlow.

(** ** [ChirpOptionsFlow] *)

Section OptionsFlow.

Variable W : World.
Variable K : Constants.

(** Check if MQTT settings have changed. *)
Definition mqtt_changed (user_input entry_data : dict) : bool :=
  get_ne user_input entry_data CONF_MQTT_SERVER
  || get_ne user_input entry_data CONF_MQTT_PORT
  || get_ne user_input entry_data CONF_MQTT_USER
  || get_ne user_input entry_data CONF_MQTT_PWD
  || get_ne user_input entry_data CONF_MQTT_DISC
  || get_ne user_input entry_data CONF_MQTT_CHIRPSTACK_PREFIX.

(** [{**entry_data}] with the six MQTT settings of [user_input] assigned
    one after the other; the step writes this out twice, for
    [test_config] and for [new_data]. *)
Definition with_mqtt_settings (entry_data user_input : dict) : res dict :=
  res_bind (getitem user_input CONF_MQTT_SERVER) (fun v_server =>
  res_bind (getitem user_input CONF_MQTT_PORT) (fun v_port =>
  res_bind (getitem user_input CONF_MQTT_USER) (fun v_user =>
  res_bind (getitem user_input CONF_MQTT_PWD) (fun v_pwd =>
  res_bind (getitem user_input CONF_MQTT_DISC) (fun v_disc =>
  res_bind (getitem user_input CONF_MQTT_CHIRPSTACK_PREFIX) (fun v_prefix =>
  Ok (<[CONF_MQTT_CHIRPSTACK_PREFIX := v_prefix]>
     (<[CONF_MQTT_DISC := v_disc]>
     (<[CONF_MQTT_PWD := v_pwd]>
     (<[CONF_MQTT_USER := v_user]>
     (<[CONF_MQTT_PORT := v_port]>
     (<[CONF_MQTT_SERVER := v_server]> entry_data)))))))))))).

(** Test MQTT connection. *)
Definition test_mqtt_connection (test_config : dict)
  : M ChirpOptionsFlow unit :=
  entry_data <- gets (fun s => data (config_entry s)) ;;
  options_call (Call_ChirpGrpc entry_data) (ChirpGrpc W entry_data) ;;;
  options_call (Call_ChirpToHA test_config)
               (ChirpToHA W test_config (Some entry_data)) ;;;
  options_call Call_mqtt_close (Ok tt) ;;;
  options_call Call_grpc_close (Ok tt).

(** The dictionary of the six options of [user_input]. *)
Definition options_of (user_input : dict) : res dict :=
  res_bind (getitem user_input CONF_OPTIONS_START_DELAY) (fun v_delay =>
  res_bind (getitem user_input CONF_OPTIONS_RESTORE_AGE) (fun v_age =>
  res_bind (getitem user_input CONF_OPTIONS_DEBUG_PAYLOAD) (fun v_debug =>
  res_bind (getitem user_input CONF_OPTIONS_LOG_LEVEL) (fun v_level =>
  res_bind (getitem user_input CONF_OPTIONS_ONLINE_PER_DEVICE)
           (fun v_online =>
  res_bind (getitem user_input CONF_OPTIONS_EXPIRE_AFTER) (fun v_expire =>
  Ok (<[CONF_OPTIONS_EXPIRE_AFTER := v_expire]>
     (<[CONF_OPTIONS_ONLINE_PER_DEVICE := v_online]>
     (<[CONF_OPTIONS_LOG_LEVEL := v_level]>
     (<[CONF_OPTIONS_DEBUG_PAYLOAD := v_debug]>
     (<[CONF_OPTIONS_RESTORE_AGE := v_age]>
     (<[CONF_OPTIONS_START_DELAY := v_delay]> ∅)))))))))))).

(** The form of [async_step_init]. *)
Definition init_form (e : ConfigEntry) (errors : gmap conf_key error_code)
  : FlowResult :=
  async_show_form step_init
    [ {| field_key := CONF_MQTT_SERVER; field_required := true;
         field_default :=
           get_default (data e) CONF_MQTT_SERVER (DEFAULT_MQTT_SERVER K);
         field_validator := str_min_length 3 |};
      {| field_key := CONF_MQTT_PORT; field_required := true;
         field_default :=
           get_default (data e) CONF_MQTT_PORT (DEFAULT_MQTT_PORT K);
         field_validator := coerce_int_range 0 0xffff |};
      {| field_key := CONF_MQTT_USER; field_required := true;
         field_default :=
           get_default (data e) CONF_MQTT_USER (DEFAULT_MQTT_USER K);
         field_validator := str_min_length 1 |};
      {| field_key := CONF_MQTT_PWD; field_required := true;
         field_default :=
           get_default (data e) CONF_MQTT_PWD (DEFAULT_MQTT_PWD K);
         field_validator := any_str |};
      {| field_key := CONF_MQTT_DISC; field_required := true;
         field_default :=
           get_default (data e) CONF_MQTT_DISC (DEFAULT_MQTT_DISC K);
         field_validator := str_min_length 1 |};
      {| field_key := CONF_MQTT_CHIRPSTACK_PREFIX; field_required := false;
         field_default :=
           get_default (data e) CONF_MQTT_CHIRPSTACK_PREFIX
                       (DEFAULT_MQTT_CHIRPSTACK_PREFIX K);
         field_validator := any_str |};
      {| field_key := CONF_OPTIONS_START_DELAY; field_required := true;
         field_default :=
           get_default (options e) CONF_OPTIONS_START_DELAY
                       (DEFAULT_OPTIONS_START_DELAY K);
         field_validator := coerce_int_range 0 60 |};
      {| field_key := CONF_OPTIONS_RESTORE_AGE; field_required := true;
         field_default :=
           get_default (options e) CONF_OPTIONS_RESTORE_AGE
                       (DEFAULT_OPTIONS_RESTORE_AGE K);
         field_validator := coerce_int_range 0 60 |};
      {| field_key := CONF_OPTIONS_DEBUG_PAYLOAD; field_required := true;
         field_default :=
           get_default (options e) CONF_OPTIONS_DEBUG_PAYLOAD
                       (DEFAULT_OPTIONS_DEBUG_PAYLOAD K);
         field_validator := any_bool |};
      {| field_key := CONF_OPTIONS_LOG_LEVEL; field_required := true;
         field_default :=
           get_default (options e) CONF_OPTIONS_LOG_LEVEL
                       (DEFAULT_OPTIONS_LOG_LEVEL K);
         field_validator :=
           select_selector ["debug"; "info"; "warning"; "error"]%string |};
      {| field_key := CONF_OPTIONS_ONLINE_PER_DEVICE;
         field_required := true;
         field_default :=
           get_default (options e) CONF_OPTIONS_ONLINE_PER_DEVICE
                       (DEFAULT_OPTIONS_ONLINE_PER_DEVICE K);
         field_validator := coerce_int_range 0 3600 |};
      {| field_key := CONF_OPTIONS_EXPIRE_AFTER; field_required := true;
         field_default :=
           get_default (options e) CONF_OPTIONS_EXPIRE_AFTER
                       (DEFAULT_OPTIONS_EXPIRE_AFTER K);
         field_validator := any_bool |} ]
    errors.

(** Manage the options. *)
Definition async_step_init (user_input : option dict)
  : M ChirpOptionsFlow FlowResult :=
  e <- match user_input with
       | None => ret (Fall_through ∅)
       | Some ui =>
           entry_data <- gets (fun s => data (config_entry s)) ;;
           errors <-
             (if mqtt_changed ui entry_data then
                try_except
                  (test_config <- lift (with_mqtt_settings entry_data ui) ;;
                   test_mqtt_connection test_config ;;;
                   entry_data' <- gets (fun s => data (config_entry s)) ;;
                   new_data <- lift (with_mqtt_settings entry_data' ui) ;;
                   async_update_entry new_data ;;;
                   ret ∅)
                  (fun error =>
                     (* the arguments of _LOGGER.error *)
                     lift (getitem ui CONF_MQTT_SERVER) ;;;
                     lift (getitem ui CONF_MQTT_PORT) ;;;
                     ret {[CONF_MQTT_SERVER := CONF_ERROR_MQTT_CONN_FAILED]})
              else ret ∅) ;;
           if bool_decide (errors = ∅) then
             options_data <- lift (options_of ui) ;;
             ret (Return (async_create_entry EmptyString options_data ∅))
           else ret (Fall_through errors)
       end ;;
  match e with
  | Return r => ret r
  | Fall_through errors =>
      entry <- gets config_entry ;;
      ret (init_form entry errors)
  end.

(** One submission to the options flow of entry [e]: the step, then the
    flow manager's handling of its result.  Gives the entry as it is
    stored afterwards, the outcome of the step and the calls made. *)
Definition reconfigure (e : ConfigEntry) (user_input : dict)
  : ConfigEntry * res FlowResult * list event :=
  let '(s, r) := async_step_init (Some user_input)
                   {| config_entry := e; options_calls := [] |} in
  (options_flow_finish (config_entry s) r, r, options_calls s).

End OptionsFlow.

(** The eight fields that feed the unique id are those of [id_keys]; the
    six broker fields are the ones that the options flow compares. *)
Definition mqtt_keys : list conf_key :=
  [ CONF_MQTT_SERVER; CONF_MQTT_PORT; CONF_MQTT_USER; CONF_MQTT_PWD;
    CONF_MQTT_DISC; CONF_MQTT_CHIRPSTACK_PREFIX ].

Definition options_keys : list conf_key :=
  [ CONF_OPTIONS_START_DELAY; CONF_OPTIONS_RESTORE_AGE;
    CONF_OPTIONS_DEBUG_PAYLOAD; CONF_OPTIONS_LOG_LEVEL;
    CONF_OPTIONS_ONLINE_PER_DEVICE; CONF_OPTIONS_EXPIRE_AFTER ].

(** A dictionary has all the keys of a list. *)
Definition has_keys (d : dict) (ks : list conf_key) : Prop :=
  Forall (fun k => is_Some (d !! k)) ks.

#[global] Instance has_keys_dec d ks : Decision (has_keys d ks).
Proof. unfold has_keys. apply _. Defined.

(** ** The eight-field tuple of the design document *)

(** The ordered tuple over which the fingerprint is derived. *)
Record id_fields : Set := {
  directory_host : value;
  directory_port : value;
  tenant : value;
  application : value;
  broker_host : value;
  broker_port : value;
  discovery_prefix : value;
  vendor_prefix : value
}.

(** The tuple of a configuration that has the eight fields. *)
Definition fields_of (c : dict) : option id_fields :=
  h ← c !! CONF_API_SERVER; p ← c !! CONF_API_PORT;
  t ← c !! CONF_TENANT; a ← c !! CONF_APPLICATION;
  bh ← c !! CONF_MQTT_SERVER; bp ← c !! CONF_MQTT_PORT;
  dp ← c !! CONF_MQTT_DISC; vp ← c !! CONF_MQTT_CHIRPSTACK_PREFIX;
  Some {| directory_host := h; directory_port := p; tenant := t;
          application := a; broker_host := bh; broker_port := bp;
          discovery_prefix := dp; vendor_prefix := vp |}.

(** The string forms of the fields, in the order of the tuple. *)
Definition strs (t : id_fields) : list string :=
  [ py_str (directory_host t); py_str (directory_port t);
    py_str (tenant t); py_str (application t);
    py_str (broker_host t); py_str (broker_port t);
    py_str (discovery_prefix t); py_str (vendor_prefix t) ].

(** The contract of the fingerprint generator in the words of the design
    document: each field coerced to its string form, concatenated in fixed
    field order with no separators, hashed, in hexadecimal. *)
Definition fingerprint (t : id_fields) : string :=
  hashlib.hexdigest (hashlib.md5 (encode (
    py_str (directory_host t) +:+ py_str (directory_port t) +:+
    py_str (tenant t) +:+ py_str (application t) +:+
    py_str (broker_host t) +:+ py_str (broker_port t) +:+
    py_str (discovery_prefix t) +:+ py_str (vendor_prefix t)))).

(** ** Sample data *)

Module Sample.

Definition K0 : Constants :=
  {| DEFAULT_NAME := "ChirpStack";
     DEFAULT_API_SERVER := VStr "localhost";
     DEFAULT_API_PORT := VInt 8080;
     DEFAULT_API_KEY := VStr "";
     DEFAULT_TENANT := VStr "";
     DEFAULT_APPLICATION := VStr "";
     DEFAULT_MQTT_SERVER := VStr "localhost";
     DEFAULT_MQTT_PORT := VInt 1883;
     DEFAULT_MQTT_USER := VStr "";
     DEFAULT_MQTT_PWD := VStr "";
     DEFAULT_MQTT_DISC := VStr "homeassistant";
     DEFAULT_MQTT_CHIRPSTACK_PREFIX := VStr "";
     DEFAULT_OPTIONS_START_DELAY := VInt 2;
     DEFAULT_OPTIONS_RESTORE_AGE := VInt 4;
     DEFAULT_OPTIONS_DEBUG_PAYLOAD := VBool false;
     DEFAULT_OPTIONS_LOG_LEVEL := VStr "info";
     DEFAULT_OPTIONS_ONLINE_PER_DEVICE := VInt 0;
     DEFAULT_OPTIONS_EXPIRE_AFTER := VBool false |}.

(** A configuration with the eight fields and the rest. *)
Definition config (host : string) (port : Z) (tenant_name app_name : string)
    (mqtt_host : string) (mqtt_port : Z) : dict :=
  list_to_map
    [ (CONF_API_SERVER, VStr host); (CONF_API_PORT, VInt port);
      (CONF_API_KEY, VStr "0123456789");
      (CONF_TENANT, VStr tenant_name); (CONF_APPLICATION, VStr app_name);
      (CONF_APPLICATION_ID, VStr "a1");
      (CONF_MQTT_SERVER, VStr mqtt_host); (CONF_MQTT_PORT, VInt mqtt_port);
      (CONF_MQTT_USER, VStr "user"); (CONF_MQTT_PWD, VStr "secret");
      (CONF_MQTT_DISC, VStr "homeassistant");
      (CONF_MQTT_CHIRPSTACK_PREFIX, VStr "") ].

(** A world in which the directory and the broker accept every
    connection, with the given answers to the two listings. *)
Definition world (tenants apps : res listing) (broker : res unit) : World :=
  {| ChirpGrpc := fun _ => Ok tt;
     get_chirp_tenants := fun _ => tenants;
     get_tenant_applications := fun _ _ => apps;
     ChirpToHA := fun _ _ => broker |}.

Definition one_tenant : listing := {[ "Acme" := "t1" ]}.
Definition two_tenants : listing := <[ "Beta" := "t2" ]> one_tenant.
Definition one_app : listing := {[ "Sensors" := "a1" ]}.
Definition two_apps : listing := <[ "Meters" := "a2" ]> one_app.

(** One tenant with one application; the broker answers. *)
Definition W_one : World := world (Ok one_tenant) (Ok one_app) (Ok tt).
(** Two tenants, two applications. *)
Definition W_two : World := world (Ok two_tenants) (Ok two_apps) (Ok tt).
(** The listing of applications fails. *)
Definition W_apps_fail : World :=
  world (Ok two_tenants) (Raise (ExternalError "unavailable")) (Ok tt).
(** The listing of tenants fails. *)
Definition W_tenants_fail : World :=
  world (Raise (ExternalError "unavailable")) (Ok one_app) (Ok tt).
(** The directory has no tenant. *)
Definition W_no_tenants : World := world (Ok ∅) (Ok one_app) (Ok tt).
(** The broker refuses the connection. *)
Definition W_broker_down : World :=
  world (Ok one_tenant) (Ok one_app) (Raise (ExternalError "refused")).

(** What the user submits at the endpoint-entry step. *)
Definition endpoint : dict :=
  list_to_map
    [ (CONF_API_SERVER, VStr "host"); (CONF_API_PORT, VInt 8080);
      (CONF_API_KEY, VStr "0123456789") ].

(** What the user submits at the broker-configuration step. *)
Definition broker (mqtt_host : string) : dict :=
  list_to_map
    [ (CONF_MQTT_SERVER, VStr mqtt_host); (CONF_MQTT_PORT, VInt 1883);
      (CONF_MQTT_USER, VStr "user"); (CONF_MQTT_PWD, VStr "secret");
      (CONF_MQTT_DISC, VStr "homeassistant");
      (CONF_MQTT_CHIRPSTACK_PREFIX, VStr "") ].

(** What the user submits to the options flow. *)
Definition submission (mqtt_host log_level : string) : dict :=
  broker mqtt_host ∪
  list_to_map
    [ (CONF_OPTIONS_START_DELAY, VInt 2);
      (CONF_OPTIONS_RESTORE_AGE, VInt 4);
      (CONF_OPTIONS_DEBUG_PAYLOAD, VBool false);
      (CONF_OPTIONS_LOG_LEVEL, VStr log_level);
      (CONF_OPTIONS_ONLINE_PER_DEVICE, VInt 0);
      (CONF_OPTIONS_EXPIRE_AFTER, VBool false) ].

(** The flow after the endpoint has been submitted in a world. *)
Definition session (W : World) : ChirpConfigFlow :=
  fst (async_step_user W K0 [] (Some endpoint) new_ChirpConfigFlow).

(** The accumulated input of [session W_one]: the endpoint, then the
    tenant and the application that were selected. *)
Definition session_input : dict :=
  <[CONF_APPLICATION_ID := VStr "a1"]>
    ({[CONF_APPLICATION := VStr "Sensors"]} ∪
     ({[CONF_TENANT := VStr "Acme"]} ∪
      <[CONF_APPLICATION_ID := VStr ""]> endpoint)).

(** The entry that a session with one tenant and one application
    commits for the broker [mqtt_host]. *)
Definition entry (mqtt_host : string) : ConfigEntry :=
  let c := config "host" 8080 "Acme" "Sensors" mqtt_host 1883 in
  {| unique_id := match generate_unique_id c with
                  | Ok u => Some u
                  | Raise _ => None
                  end;
     data := c;
     options := default_options K0 |}.

End Sample.

(** ** States and forms that the properties name *)

(** The form of the endpoint-entry step with the given defaults. *)
Definition endpoint_form (host port key : value)
    (errors : gmap conf_key error_code) : FlowResult :=
  async_show_form step_user
    [ {| field_key := CONF_API_SERVER; field_required := true;
         field_default := host; field_validator := str_min_length 3 |};
      {| field_key := CONF_API_PORT; field_required := true;
         field_default := port; field_validator := int_range 0 0xffff |};
      {| field_key := CONF_API_KEY; field_required := true;
         field_default := key; field_validator := str_min_length 10 |} ]
    errors.

(** The form of the broker-configuration step with the given defaults. *)
Definition broker_form (server port user pwd disc prefix : value)
    (errors : gmap conf_key error_code) : FlowResult :=
  async_show_form step_configure_mqtt
    [ {| field_key := CONF_MQTT_SERVER; field_required := true;
         field_default := server; field_validator := str_min_length 3 |};
      {| field_key := CONF_MQTT_PORT; field_required := true;
         field_default := port; field_validator := int_range 0 0xffff |};
      {| field_key := CONF_MQTT_USER; field_required := true;
         field_default := user; field_validator := str_min_length 1 |};
      {| field_key := CONF_MQTT_PWD; field_required := true;
         field_default := pwd; field_validator := any_str |};
      {| field_key := CONF_MQTT_DISC; field_required := true;
         field_default := disc; field_validator := str_min_length 1 |};
      {| field_key := CONF_MQTT_CHIRPSTACK_PREFIX; field_required := false;
         field_default := prefix; field_validator := any_str |} ]
    errors.

(** The broker form with the defaults of [const.py]. *)
Definition default_broker_form (K : Constants) : FlowResult :=
  broker_form (DEFAULT_MQTT_SERVER K) (DEFAULT_MQTT_PORT K)
    (DEFAULT_MQTT_USER K) (DEFAULT_MQTT_PWD K) (DEFAULT_MQTT_DISC K)
    (DEFAULT_MQTT_CHIRPSTACK_PREFIX K) ∅.

(** The flow once the endpoint [ui'] has been accepted: the channel is
    open and the tenants are listed. *)
Definition endpoint_accepted (ui' : dict) (tenants : listing)
    (s : ChirpConfigFlow) : ChirpConfigFlow :=
  set_input (Some ui')
    (set_tenants_list (Some tenants)
       (set_calls (calls s ++ [Call_ChirpGrpc ui'; Call_get_chirp_tenants])
          (set_grpc_channel (Some ui') s))).

(** The flow once the tenant step has merged the selection [ui] into the
    input [d], found the identifier of the selected tenant and asked for
    its applications. *)
Definition tenant_asked (ui d : dict) (tenant_id : string)
    (s : ChirpConfigFlow) : ChirpConfigFlow :=
  set_calls (calls s ++ [Call_get_tenant_applications tenant_id])
    (set_tenant_id (Some tenant_id) (set_input (Some (ui ∪ d)) s)).

(** The same once the directory has answered with [apps]. *)
Definition tenant_selected (ui d : dict) (tenant_id : string)
    (apps : listing) (s : ChirpConfigFlow) : ChirpConfigFlow :=
  set_apps_list (Some apps) (tenant_asked ui d tenant_id s).

(** The flow once the application step has merged the selection [ui] into
    the input [d] and stored the identifier of the selected application. *)
Definition application_selected (ui d : dict) (app_id : string)
    (s : ChirpConfigFlow) : ChirpConfigFlow :=
  set_input (Some (<[CONF_APPLICATION_ID := VStr app_id]> (ui ∪ d)))
    (set_app_id (Some app_id) s).

(** The selection that a selection step works with: the only name of the
    listing when there is exactly one, what the user submitted otherwise. *)
Definition effective_selection (k : conf_key) (l : listing)
    (user_input : option dict) : option dict :=
  if bool_decide (length (keys l) = 1%nat)
  then Some {[k := VStr (hd EmptyString (keys l))]}
  else user_input.

(** The flow holds the selection of a tenant: its display name under
    [CONF_TENANT] in the accumulated input, its identifier in
    [_tenant_id]. *)
Definition holds_tenant (s : ChirpConfigFlow) (name tenant_id : string)
  : Prop :=
  exists d, _input s = Some d
            /\ d !! CONF_TENANT = Some (VStr name)
            /\ _tenant_id s = Some tenant_id.

(** The flow holds the selection of an application: its display name under
    [CONF_APPLICATION], its identifier under [CONF_APPLICATION_ID] and in
    [_app_id]. *)
Definition holds_application (s : ChirpConfigFlow) (name app_id : string)
  : Prop :=
  exists d, _input s = Some d
            /\ d !! CONF_APPLICATION = Some (VStr name)
            /\ d !! CONF_APPLICATION_ID = Some (VStr app_id)
            /\ _app_id s = Some app_id.

(** The error slot of a failed broker connection. *)
Definition conn_failed : gmap conf_key error_code :=
  {[CONF_MQTT_SERVER := CONF_ERROR_MQTT_CONN_FAILED]}.

(** The connectivity validation of the options flow is
    [test_mqtt_connection], which begins by opening a directory client for
    the stored data; the options flow opens none otherwise. *)
Definition validation_invoked (e : ConfigEntry) (tr : list event) : Prop :=
  Call_ChirpGrpc (data e) ∈ tr.

(** Some broker field of the submission differs from the stored one, in
    the sense of Python's [!=]. *)
Definition broker_field_differs (ui entry_data : dict) : Prop :=
  exists k, k ∈ mqtt_keys /\ get_ne ui entry_data k = true.

(** The directory-side fields of the tuple that feeds the unique id. *)
Definition directory_keys : list conf_key :=
  [ CONF_API_SERVER; CONF_API_PORT; CONF_TENANT; CONF_APPLICATION ].

(** The broker-side fields of that tuple. *)
Definition broker_id_keys : list conf_key :=
  [ CONF_MQTT_SERVER; CONF_MQTT_PORT; CONF_MQTT_DISC;
    CONF_MQTT_CHIRPSTACK_PREFIX ].

(** A byte, as a number. *)
Definition is_byte (b : Z) : Prop := 0 <= b < 256.

(** ** The rest of the two classes *)

(** [ChirpConfigFlow.__del__]: close grpc channel on exit. *)
Definition __del__ : M ChirpConfigFlow unit :=
  channel <- gets _grpc_channel ;;
  match channel with
  | Some _ => call Call_grpc_close (Ok tt)
  | None => ret tt
  end.

(** A call to the directory client that opens or queries it. *)
Definition directory_call (ev : event) : bool :=
  match ev with
  | Call_ChirpGrpc _ | Call_get_chirp_tenants
  | Call_get_tenant_applications _ => true
  | _ => false
  end.

(** The result is a form. *)
Definition is_form (r : FlowResult) : Prop :=
  match r with
  | async_show_form _ _ _ => True
  | _ => False
  end.

(** The six options of [Sample.submission], as the options flow stores
    them. *)
Definition sample_options (log_level : string) : dict :=
  list_to_map
    [ (CONF_OPTIONS_START_DELAY, VInt 2);
      (CONF_OPTIONS_RESTORE_AGE, VInt 4);
      (CONF_OPTIONS_DEBUG_PAYLOAD, VBool false);
      (CONF_OPTIONS_LOG_LEVEL, VStr log_level);
      (CONF_OPTIONS_ONLINE_PER_DEVICE, VInt 0);
      (CONF_OPTIONS_EXPIRE_AFTER, VBool false) ].

(** The submission of a form that is sent back as it was presented:
    every field at its default. *)
Definition untouched (r : FlowResult) : dict :=
  match r with
  | async_show_form _ data_schema _ =>
      list_to_map (map (fun f => (field_key f, field_default f)) data_schema)
  | _ => ∅
  end.

(** * Properties *)

(** ** The unique-id generator *)

Lemma append_empty_r (s : string) : s +:+ "" = s.
Proof.
  induction s as [|a s IH]; [reflexivity|].
  change (String a (s +:+ "") = String a s). now rewrite IH.
Qed.

Lemma fields_of_lookups (c : dict) (t : id_fields) :
  fields_of c = Some t <->
  c !! CONF_API_SERVER = Some (directory_host t) /\
  c !! CONF_API_PORT = Some (directory_port t) /\
  c !! CONF_TENANT = Some (tenant t) /\
  c !! CONF_APPLICATION = Some (application t) /\
  c !! CONF_MQTT_SERVER = Some (broker_host t) /\
  c !! CONF_MQTT_PORT = Some (broker_port t) /\
  c !! CONF_MQTT_DISC = Some (discovery_prefix t) /\
  c !! CONF_MQTT_CHIRPSTACK_PREFIX = Some (vendor_prefix t).
Proof.
  unfold fields_of. split.
  - intros H.
    repeat match type of H with
           | context [?c !! ?k] => destruct (c !! k); simpl in H; [|discriminate]
           end.
    injection H as <-. simpl. repeat split.
  - intros (-> & -> & -> & -> & -> & -> & -> & ->). simpl. now destruct t.
Qed.

Lemma u_id_fields (c : dict) (t : id_fields) :
  fields_of c = Some t -> u_id c = Ok (join (strs t)).
Proof.
  intros H. apply fields_of_lookups in H.
  destruct H as (H1 & H2 & H3 & H4 & H5 & H6 & H7 & H8).
  unfold u_id, id_keys, str_fields, getitem.
  now rewrite H1, H2, H3, H4, H5, H6, H7, H8.
Qed.

Lemma fingerprint_join (t : id_fields) :
  fingerprint t = hashlib.hexdigest (hashlib.md5 (encode (join (strs t)))).
Proof.
  unfold fingerprint, join, strs. cbn [fold_right].
  now rewrite append_empty_r.
Qed.

Lemma generate_unique_id_fields (c : dict) (t : id_fields) :
  fields_of c = Some t -> generate_unique_id c = Ok (fingerprint t).
Proof.
  intros H. unfold generate_unique_id. rewrite (u_id_fields c t H).
  now rewrite fingerprint_join.
Qed.

(** C4: the generator is a function of the eight fields alone: a
    configuration that has them gets the hexadecimal digest of the hash of
    their string forms concatenated in field order with nothing between
    them, and two configurations with the same eight fields get the same
    digest. *)
Theorem generate_unique_id_deterministic (c1 c2 : dict) (t : id_fields) :
  fields_of c1 = Some t ->
  fields_of c2 = Some t ->
  generate_unique_id c1 = Ok (fingerprint t)
  /\ generate_unique_id c2 = generate_unique_id c1.
Proof.
  intros H1 H2.
  rewrite (generate_unique_id_fields c1 t H1).
  rewrite (generate_unique_id_fields c2 t H2).
  split; reflexivity.
Qed.

Lemma generate_unique_id_deterministic_witness :
  generate_unique_id (Sample.config "host" 8080 "Acme" "Sensors" "broker" 1883)
  = Ok "2c364dde3190121653e64388a607c019"
  /\ generate_unique_id
       (<[CONF_MQTT_PWD := VStr "other"]>
          (Sample.config "host" 8080 "Acme" "Sensors" "broker" 1883))
     = generate_unique_id
         (Sample.config "host" 8080 "Acme" "Sensors" "broker" 1883).
Proof.
  exact (generate_unique_id_deterministic
           (Sample.config "host" 8080 "Acme" "Sensors" "broker" 1883)
           (<[CONF_MQTT_PWD := VStr "other"]>
              (Sample.config "host" 8080 "Acme" "Sensors" "broker" 1883))
           {| directory_host := VStr "host"; directory_port := VInt 8080;
              tenant := VStr "Acme"; application := VStr "Sensors";
              broker_host := VStr "broker"; broker_port := VInt 1883;
              discovery_prefix := VStr "homeassistant";
              vendor_prefix := VStr "" |}
           eq_refl eq_refl).
Defined.

(** Strings as lists of characters. *)

Lemma list_ascii_append (s1 s2 : string) :
  list_ascii_of_string (s1 +:+ s2)
  = list_ascii_of_string s1 ++ list_ascii_of_string s2.
Proof.
  induction s1 as [|a s1 IH]; [reflexivity|].
  change (a :: list_ascii_of_string (s1 +:+ s2)
          = a :: (list_ascii_of_string s1 ++ list_ascii_of_string s2)).
  now rewrite IH.
Qed.

Lemma list_ascii_inj (s1 s2 : string) :
  list_ascii_of_string s1 = list_ascii_of_string s2 -> s1 = s2.
Proof.
  intros H. rewrite <- (string_of_list_ascii_of_string s1).
  rewrite <- (string_of_list_ascii_of_string s2). now rewrite H.
Qed.

Lemma list_ascii_join_app (l1 l2 : list string) :
  list_ascii_of_string (join (l1 ++ l2))
  = list_ascii_of_string (join l1) ++ list_ascii_of_string (join l2).
Proof.
  induction l1 as [|s l1 IH]; [reflexivity|].
  change (list_ascii_of_string (s +:+ join (l1 ++ l2))
          = list_ascii_of_string (s +:+ join l1)
            ++ list_ascii_of_string (join l2)).
  rewrite !list_ascii_append, IH. now rewrite app_assoc.
Qed.

(** Changing one element of the list changes the concatenation. *)
Lemma join_one_change (pre post : list string) (x y : string) :
  join (pre ++ x :: post) = join (pre ++ y :: post) -> x = y.
Proof.
  intros H. apply (f_equal list_ascii_of_string) in H.
  rewrite !list_ascii_join_app in H.
  apply app_inv_head in H.
  change (list_ascii_of_string (x +:+ join post)
          = list_ascii_of_string (y +:+ join post)) in H.
  rewrite !list_ascii_append in H.
  apply app_inv_tail in H. now apply list_ascii_inj.
Qed.

Lemma encode_inj (s1 s2 : string) : encode s1 = encode s2 -> s1 = s2.
Proof.
  unfold encode. intros H. apply list_ascii_inj.
  revert H. generalize (list_ascii_of_string s1) (list_ascii_of_string s2).
  induction l as [|a l IH]; intros [|b l'] H; try discriminate; [reflexivity|].
  injection H as Ha Hl. f_equal; [|now apply IH].
  apply N2Z.inj in Ha.
  rewrite <- (ascii_N_embedding a), <- (ascii_N_embedding b).
  now rewrite Ha.
Qed.

(** The hexadecimal form determines the bytes. *)

Lemma lookup_nth {A} (l : list A) (i : nat) (d : A) :
  (i < length l)%nat -> l !! i = Some (nth i l d).
Proof.
  intros H. rewrite nth_lookup.
  destruct (lookup_lt_is_Some_2 l i H) as [x ->]. reflexivity.
Qed.

Lemma hex_digits_NoDup :
  NoDup (list_ascii_of_string "0123456789abcdef").
Proof. apply (bool_decide_unpack _). vm_compute. exact I. Qed.

Lemma hex_digit_inj (m n : Z) :
  0 <= m < 16 -> 0 <= n < 16 ->
  hashlib.hex_digit m = hashlib.hex_digit n -> m = n.
Proof.
  intros Hm Hn H. unfold hashlib.hex_digit in H.
  assert (E : Z.to_nat m = Z.to_nat n); [|lia].
  apply (proj1 (NoDup_alt _) hex_digits_NoDup (Z.to_nat m) (Z.to_nat n)
           (nth (Z.to_nat m) (list_ascii_of_string "0123456789abcdef")
                "0"%char)).
  - apply lookup_nth. simpl. lia.
  - rewrite H. apply lookup_nth. simpl. lia.
Qed.

Lemma hex_byte_inj (a b : Z) :
  is_byte a -> is_byte b -> hashlib.hex_byte a = hashlib.hex_byte b -> a = b.
Proof.
  unfold is_byte, hashlib.hex_byte. intros Ha Hb H.
  injection H as Hhi Hlo.
  apply hex_digit_inj in Hhi;
    [| split; [apply Z.div_pos | apply Z.div_lt_upper_bound]; lia ..].
  apply hex_digit_inj in Hlo; [| apply Z.mod_pos_bound; lia ..].
  rewrite (Z.div_mod a 16), (Z.div_mod b 16) by lia. now rewrite Hhi, Hlo.
Qed.

Lemma hexdigest_inj (l1 l2 : list Z) :
  Forall is_byte l1 -> Forall is_byte l2 ->
  hashlib.hexdigest l1 = hashlib.hexdigest l2 -> l1 = l2.
Proof.
  unfold hashlib.hexdigest. intros H1 H2 H.
  apply (f_equal list_ascii_of_string) in H.
  rewrite !list_ascii_of_string_of_list_ascii in H.
  revert l2 H2 H. induction H1 as [|a l1 Ha _ IH]; intros l2 H2 H.
  - destruct l2; [reflexivity | discriminate H].
  - destruct H2 as [|b l2 Hb H2]; [discriminate H|].
    cbn [flat_map] in H.
    change (hashlib.hex_byte a)
      with [hashlib.hex_digit (a / 16); hashlib.hex_digit (a mod 16)] in H.
    change (hashlib.hex_byte b)
      with [hashlib.hex_digit (b / 16); hashlib.hex_digit (b mod 16)] in H.
    injection H as Hhi Hlo Hrest.
    f_equal; [| now apply IH].
    apply hex_byte_inj; [assumption .. |].
    unfold hashlib.hex_byte. now rewrite Hhi, Hlo.
Qed.

Lemma le_bytes_is_byte (n : nat) (x : Z) :
  Forall is_byte (hashlib.le_bytes n x).
Proof.
  revert x. induction n as [|n IH]; intros x; constructor; [|apply IH].
  unfold is_byte. change 255 with (Z.ones 8).
  rewrite Z.land_ones by lia. apply Z.mod_pos_bound. lia.
Qed.

Lemma md5_is_bytes (msg : list Z) : Forall is_byte (hashlib.md5 msg).
Proof.
  unfold hashlib.md5.
  destruct (hashlib.process _ _ _) as [[[a b] c] d].
  repeat (apply Forall_app; split); apply le_bytes_is_byte.
Qed.

Lemma hexdigest_md5_inj (m1 m2 : list Z) :
  hashlib.hexdigest (hashlib.md5 m1) = hashlib.hexdigest (hashlib.md5 m2) ->
  hashlib.md5 m1 = hashlib.md5 m2.
Proof. apply hexdigest_inj; apply md5_is_bytes. Qed.

(** C5, as stated, fails: the string forms are concatenated with nothing
    between them, so directory host "a" with port 11 and directory host
    "a1" with port 1 are two tuples that differ in two fields and get the
    same digest. *)
Lemma different_fields_same_digest :
  let c1 := Sample.config "a" 11 "Acme" "Sensors" "broker" 1883 in
  let c2 := Sample.config "a1" 1 "Acme" "Sensors" "broker" 1883 in
  (exists t1 t2,
     fields_of c1 = Some t1 /\ fields_of c2 = Some t2 /\
     directory_host t1 <> directory_host t2 /\
     directory_port t1 <> directory_port t2)
  /\ generate_unique_id c1 = generate_unique_id c2.
Proof.
  split.
  - eexists _, _. split; [reflexivity|]. split; [reflexivity|].
    split; discriminate.
  - reflexivity.
Qed.

(** C5, amended: when two tuples differ in the string form of exactly one
    field, the hashed strings differ, and the digests can only be equal if
    MD5 maps these two different strings to the same value. *)
Theorem one_field_change_changes_hashed_string
    (c1 c2 : dict) (t1 t2 : id_fields)
    (pre post : list string) (x y : string) :
  fields_of c1 = Some t1 ->
  fields_of c2 = Some t2 ->
  strs t1 = pre ++ x :: post ->
  strs t2 = pre ++ y :: post ->
  x <> y ->
  exists m1 m2,
    u_id c1 = Ok m1 /\ u_id c2 = Ok m2 /\ encode m1 <> encode m2 /\
    (generate_unique_id c1 = generate_unique_id c2 ->
     hashlib.md5 (encode m1) = hashlib.md5 (encode m2)).
Proof.
  intros H1 H2 E1 E2 Hxy.
  exists (join (strs t1)), (join (strs t2)).
  split; [now apply u_id_fields|]. split; [now apply u_id_fields|].
  split.
  - intros H. apply encode_inj in H. rewrite E1, E2 in H.
    now apply join_one_change in H.
  - unfold generate_unique_id.
    rewrite (u_id_fields c1 t1 H1), (u_id_fields c2 t2 H2).
    intros H. injection H as H. now apply hexdigest_md5_inj.
Qed.

Lemma one_field_change_changes_hashed_string_witness :
  exists m1 m2,
    u_id (Sample.config "host" 8080 "Acme" "Sensors" "broker" 1883) = Ok m1 /\
    u_id (Sample.config "host" 8081 "Acme" "Sensors" "broker" 1883) = Ok m2 /\
    encode m1 <> encode m2 /\
    (generate_unique_id (Sample.config "host" 8080 "Acme" "Sensors" "broker" 1883)
     = generate_unique_id (Sample.config "host" 8081 "Acme" "Sensors" "broker" 1883) ->
     hashlib.md5 (encode m1) = hashlib.md5 (encode m2)).
Proof.
  refine (one_field_change_changes_hashed_string
            (Sample.config "host" 8080 "Acme" "Sensors" "broker" 1883)
            (Sample.config "host" 8081 "Acme" "Sensors" "broker" 1883)
            _ _ ["host"]
            ["Acme"; "Sensors"; "broker"; "1883"; "homeassistant"; ""]
            "8080" "8081" eq_refl eq_refl eq_refl eq_refl _).
  discriminate.
Defined.

(** ** Running a step symbolically *)

Ltac unfold_step :=
  cbv [bind ret raise lift gets modify try_except try_except_AbortFlow
       call options_call input_ior input_setitem self_input
       async_set_unique_id _abort_if_unique_id_configured
       async_update_entry grpc_get_tenant_applications].

Ltac simpl_flow :=
  cbn [_grpc_channel _tenants_list _apps_list _input _tenant_id _app_id
       context_unique_id calls set_grpc_channel set_tenants_list
       set_apps_list set_input set_tenant_id set_app_id
       set_context_unique_id set_calls config_entry options_calls
       unique_id data options fst snd].

Lemma configured_true (entries : list ConfigEntry) (uid : string)
    (e : ConfigEntry) :
  e ∈ entries -> unique_id e = Some uid -> configured entries uid = true.
Proof.
  intros He Hu. unfold configured. apply existsb_exists. exists e. split.
  - now apply list_elem_of_In.
  - now apply bool_decide_eq_true.
Qed.

(** C1: when the unique id computed over the accumulated input is the
    unique id of a stored entry, the broker-configuration step ends the
    flow with the abort outcome [CONF_CHIRP_SERVER_RESERVED] (an abort, not
    a form with an error), it has made no call to the broker client, and
    the flow manager leaves the stored entries as they were. *)
Theorem already_configured_aborts (W : World) (K : Constants)
    (entries : list ConfigEntry) (s : ChirpConfigFlow) (d ui : dict)
    (uid : string) (e : ConfigEntry) :
  _input s = Some d ->
  generate_unique_id (ui ∪ d) = Ok uid ->
  e ∈ entries ->
  unique_id e = Some uid ->
  exists s',
    async_step_configure_mqtt W K entries (Some ui) s
    = (s', Ok (async_abort CONF_CHIRP_SERVER_RESERVED))
    /\ calls s' = calls s
    /\ config_flow_finish entries s'
         (Ok (async_abort CONF_CHIRP_SERVER_RESERVED)) = entries.
Proof.
  intros Hin Hgen He Hu.
  exists (set_context_unique_id (Some uid) (set_input (Some (ui ∪ d)) s)).
  split; [|split; reflexivity].
  unfold async_step_configure_mqtt. unfold_step.
  rewrite Hin. simpl_flow. rewrite Hgen. simpl_flow.
  now rewrite (configured_true entries uid e He Hu).
Qed.

Lemma already_configured_aborts_witness :
  exists s',
    async_step_configure_mqtt Sample.W_one Sample.K0 [Sample.entry "broker"]
      (Some (Sample.broker "broker")) (Sample.session Sample.W_one)
    = (s', Ok (async_abort CONF_CHIRP_SERVER_RESERVED))
    /\ calls s' = calls (Sample.session Sample.W_one)
    /\ config_flow_finish [Sample.entry "broker"] s'
         (Ok (async_abort CONF_CHIRP_SERVER_RESERVED))
       = [Sample.entry "broker"].
Proof.
  apply (already_configured_aborts Sample.W_one Sample.K0
           [Sample.entry "broker"] (Sample.session Sample.W_one)
           Sample.session_input (Sample.broker "broker")
           "2c364dde3190121653e64388a607c019" (Sample.entry "broker")).
  - vm_compute; reflexivity.
  - vm_compute; reflexivity.
  - apply list_elem_of_here.
  - vm_compute; reflexivity.
Defined.

(** ** Two sessions of the design document *)

(** Scenario A: one tenant, one application; the endpoint leads to the
    broker form without any form in between, three calls having been
    made. *)
Example scenario_A :
  async_step_user Sample.W_one Sample.K0 [] (Some Sample.endpoint)
    new_ChirpConfigFlow
  = (Sample.session Sample.W_one, Ok (default_broker_form Sample.K0))
  /\ _input (Sample.session Sample.W_one) = Some Sample.session_input
  /\ calls (Sample.session Sample.W_one)
     = [ Call_ChirpGrpc (<[CONF_APPLICATION_ID := VStr ""]> Sample.endpoint);
         Call_get_chirp_tenants; Call_get_tenant_applications "t1" ].
Proof. split; [|split]; vm_compute; reflexivity. Qed.

(** Scenario B: two tenants; the tenant form is presented with both. *)
Example scenario_B :
  snd (async_step_user Sample.W_two Sample.K0 [] (Some Sample.endpoint)
         new_ChirpConfigFlow)
  = Ok (select_tenant_form Sample.K0 Sample.two_tenants ∅)
  /\ dom Sample.two_tenants = {[ "Acme"; "Beta" ]}.
Proof. split; vm_compute; reflexivity. Qed.

(** ** The endpoint-entry step *)

Lemma not_insert (k : conf_key) (v : value) (d : dict) :
  not_ (Some (<[k := v]> d)) = false.
Proof. apply bool_decide_eq_false, insert_non_empty. Qed.

Lemma user_form_submitted (K : Constants) (ui : dict) (host port key : value)
    (errors : gmap conf_key error_code) (s : ChirpConfigFlow) :
  ui !! CONF_API_SERVER = Some host ->
  ui !! CONF_API_PORT = Some port ->
  ui !! CONF_API_KEY = Some key ->
  user_form K (Some (<[CONF_APPLICATION_ID := VStr ""]> ui)) errors s
  = (s, Ok (endpoint_form host port key errors)).
Proof.
  intros Hh Hp Hk. unfold user_form, default_or_item.
  rewrite not_insert. unfold_step. unfold getitem.
  rewrite !lookup_insert_ne by discriminate.
  now rewrite Hh, Hp, Hk.
Qed.

(** C10: a submission at the endpoint-entry step that has the three fields
    of the form.  When the directory client cannot be opened or the listing
    of tenants fails, the step presents its form again with
    [CONF_ERROR_CHIRP_CONN_FAILED] and the submitted values as defaults,
    and the flow has accepted neither input nor tenants; when the listing
    is empty, the same with [CONF_CHIRP_NO_TENANTS], after exactly the two
    calls; when the listing is not empty, the flow keeps the endpoint and
    the tenants and the result is that of the tenant step (an exception of
    the tenant step, still inside the [try], brings the form back with
    [CONF_ERROR_CHIRP_CONN_FAILED]). *)
Theorem endpoint_entry_outcomes (W : World) (K : Constants)
    (entries : list ConfigEntry) (s : ChirpConfigFlow) (ui : dict)
    (host port key : value) :
  ui !! CONF_API_SERVER = Some host ->
  ui !! CONF_API_PORT = Some port ->
  ui !! CONF_API_KEY = Some key ->
  let ui' := <[CONF_APPLICATION_ID := VStr ""]> ui in
  (forall x,
     ChirpGrpc W ui' = Raise x
     \/ (ChirpGrpc W ui' = Ok tt /\ get_chirp_tenants W ui' = Raise x) ->
     exists s',
       async_step_user W K entries (Some ui) s
       = (s', Ok (endpoint_form host port key
                    {[CONF_API_SERVER := CONF_ERROR_CHIRP_CONN_FAILED]}))
       /\ _input s' = _input s /\ _tenants_list s' = _tenants_list s)
  /\ (ChirpGrpc W ui' = Ok tt -> get_chirp_tenants W ui' = Ok ∅ ->
      exists s',
        async_step_user W K entries (Some ui) s
        = (s', Ok (endpoint_form host port key
                     {[CONF_API_SERVER := CONF_CHIRP_NO_TENANTS]}))
        /\ _input s' = _input s
        /\ calls s' = calls s ++ [Call_ChirpGrpc ui'; Call_get_chirp_tenants])
  /\ (forall tenants,
        ChirpGrpc W ui' = Ok tt -> get_chirp_tenants W ui' = Ok tenants ->
        tenants <> ∅ ->
        async_step_user W K entries (Some ui) s
        = match async_step_select_tenant W K entries None
                  (endpoint_accepted ui' tenants s) with
          | (s2, Ok r) => (s2, Ok r)
          | (s2, Raise _) =>
              (s2, Ok (endpoint_form host port key
                         {[CONF_API_SERVER := CONF_ERROR_CHIRP_CONN_FAILED]}))
          end).
Proof.
  intros Hh Hp Hk ui'.
  assert (Gh : getitem ui' CONF_API_SERVER = Ok host).
  { unfold getitem, ui'. rewrite lookup_insert_ne by discriminate. now rewrite Hh. }
  assert (Gp : getitem ui' CONF_API_PORT = Ok port).
  { unfold getitem, ui'. rewrite lookup_insert_ne by discriminate. now rewrite Hp. }
  assert (Gk : getitem ui' CONF_API_KEY = Ok key).
  { unfold getitem, ui'. rewrite lookup_insert_ne by discriminate. now rewrite Hk. }
  split; [|split].
  - intros x [Hg | [Hg Ht]].
    + eexists. unfold async_step_user. cbn [fmap option_fmap option_map].
      fold ui'. unfold_step. rewrite Hg, Gh, Gp, Gk.
      rewrite (user_form_submitted K ui host port key) by assumption.
      split; [reflexivity|]. split; reflexivity.
    + eexists. unfold async_step_user. cbn [fmap option_fmap option_map].
      fold ui'. unfold_step. rewrite Hg, Ht, Gh, Gp, Gk.
      rewrite (user_form_submitted K ui host port key) by assumption.
      split; [reflexivity|]. split; reflexivity.
  - intros Hg Ht. eexists. unfold async_step_user.
    cbn [fmap option_fmap option_map]. fold ui'. unfold_step.
    rewrite Hg, Ht. rewrite bool_decide_eq_true_2 by reflexivity.
    rewrite (user_form_submitted K ui host port key) by assumption.
    split; [reflexivity|]. split; [reflexivity|].
    simpl_flow. now rewrite <- app_assoc.
  - intros tenants Hg Ht Hne.
    unfold async_step_user. cbn [fmap option_fmap option_map]. fold ui'.
    unfold_step. rewrite Hg, Ht.
    rewrite bool_decide_eq_false_2 by assumption.
    simpl_flow. rewrite <- app_assoc. cbn [app].
    change (set_input (Some ui') _)
      with (endpoint_accepted ui' tenants s).
    destruct (async_step_select_tenant W K entries None
                (endpoint_accepted ui' tenants s)) as [s2 [r | x]].
    + reflexivity.
    + rewrite Gh, Gp, Gk.
      now rewrite (user_form_submitted K ui host port key) by assumption.
Qed.

(** ** The selection steps *)


Lemma length_keys (l : listing) : length (keys l) = size l.
Proof. unfold keys. now rewrite length_fmap, length_map_to_list. Qed.


Lemma configure_mqtt_shows_defaults (W : World) (K : Constants)
    (entries : list ConfigEntry) (s : ChirpConfigFlow) :
  async_step_configure_mqtt W K entries None s
  = (s, Ok (default_broker_form K)).
Proof. reflexivity. Qed.

(** What the tenant step does with the selection it works with. *)
Lemma select_tenant_selection (W : World) (K : Constants)
    (entries : list ConfigEntry) (s : ChirpConfigFlow)
    (user_input : option dict) (tenants : listing) (ui d c : dict)
    (name tenant_id : string) :
  _tenants_list s = Some tenants ->
  effective_selection CONF_TENANT tenants user_input = Some ui ->
  _input s = Some d ->
  _grpc_channel s = Some c ->
  ui !! CONF_TENANT = Some (VStr name) ->
  tenants !! name = Some tenant_id ->
  async_step_select_tenant W K entries user_input s
  = match get_tenant_applications W c tenant_id with
    | Raise x => (tenant_asked ui d tenant_id s, Raise x)
    | Ok apps =>
        if bool_decide (apps = ∅) then
          (tenant_selected ui d tenant_id apps s,
           Ok (select_tenant_form K tenants
                 {[CONF_API_SERVER := CONF_ERROR_NO_APPS]}))
        else
          async_step_select_application W K entries None
            (tenant_selected ui d tenant_id apps s)
    end.
Proof.
  intros Ht Hsel Hin Hc Hui Hid.
  unfold async_step_select_tenant. unfold_step. rewrite Ht.
  unfold effective_selection in Hsel. rewrite Hsel.
  rewrite Hin. simpl_flow. unfold getitem. rewrite Hui.
  unfold listing_item. rewrite Hid. simpl_flow. rewrite Hc. simpl_flow.
  destruct (get_tenant_applications W c tenant_id) as [apps | x];
    [|reflexivity].
  simpl_flow. destruct (bool_decide (apps = ∅)); [reflexivity|].
  change (set_apps_list (Some apps) _)
    with (tenant_selected ui d tenant_id apps s).
  now destruct (async_step_select_application W K entries None
                  (tenant_selected ui d tenant_id apps s)) as [s2 [r | x]].
Qed.

(** What the application step does with the selection it works with. *)
Lemma select_application_selection (W : World) (K : Constants)
    (entries : list ConfigEntry) (s : ChirpConfigFlow)
    (user_input : option dict) (apps : listing) (ui d : dict)
    (name app_id : string) :
  _apps_list s = Some apps ->
  effective_selection CONF_APPLICATION apps user_input = Some ui ->
  _input s = Some d ->
  ui !! CONF_APPLICATION = Some (VStr name) ->
  apps !! name = Some app_id ->
  async_step_select_application W K entries user_input s
  = (application_selected ui d app_id s, Ok (default_broker_form K)).
Proof.
  intros Ha Hsel Hin Hui Hid.
  unfold async_step_select_application. unfold_step. rewrite Ha.
  unfold effective_selection in Hsel. rewrite Hsel.
  rewrite Hin. simpl_flow. unfold getitem. rewrite Hui.
  unfold listing_item. rewrite Hid. simpl_flow.
  now rewrite configure_mqtt_shows_defaults.
Qed.


Lemma effective_selection_many (k : conf_key) (l : listing)
    (user_input : option dict) :
  size l <> 1%nat -> effective_selection k l user_input = user_input.
Proof.
  intros H. unfold effective_selection.
  rewrite bool_decide_eq_false_2; [reflexivity|]. now rewrite length_keys.
Qed.






(** A failure of the listing of applications leaves the tenant step as it
    was raised. *)
Lemma select_tenant_listing_failure (W : World) (K : Constants)
    (entries : list ConfigEntry) (s : ChirpConfigFlow)
    (user_input : option dict) (tenants : listing) (ui d c : dict)
    (name tenant_id : string) (x : exn) :
  _tenants_list s = Some tenants ->
  effective_selection CONF_TENANT tenants user_input = Some ui ->
  _input s = Some d ->
  _grpc_channel s = Some c ->
  ui !! CONF_TENANT = Some (VStr name) ->
  tenants !! name = Some tenant_id ->
  get_tenant_applications W c tenant_id = Raise x ->
  async_step_select_tenant W K entries user_input s
  = (tenant_asked ui d tenant_id s, Raise x).
Proof.
  intros Ht Hsel Hin Hc Hui Hid Hx.
  rewrite (select_tenant_selection W K entries s user_input tenants ui d c
             name tenant_id Ht Hsel Hin Hc Hui Hid).
  now rewrite Hx.
Qed.

(** C9: the code at the failing input.  With two tenants the endpoint-entry
    step presents the tenant form; the user picks "Acme"; the listing of
    applications fails; the failure leaves [async_step_select_tenant] as an
    exception, no form with a named error is produced. *)
Example tenant_selection_failure_is_not_caught :
  snd (async_step_user Sample.W_apps_fail Sample.K0 [] (Some Sample.endpoint)
         new_ChirpConfigFlow)
  = Ok (select_tenant_form Sample.K0 Sample.two_tenants ∅)
  /\ snd (async_step_select_tenant Sample.W_apps_fail Sample.K0 []
            (Some {[CONF_TENANT := VStr "Acme"]})
            (Sample.session Sample.W_apps_fail))
     = Raise (ExternalError "unavailable").
Proof. split; vm_compute; reflexivity. Qed.

(** ** What the unique id is computed over *)

Lemma generate_unique_id_Ok_inv (c : dict) (u : string) :
  generate_unique_id c = Ok u ->
  exists t, fields_of c = Some t /\ u = fingerprint t.
Proof.
  intros H. destruct (fields_of c) as [t|] eqn:E.
  - exists t. split; [reflexivity|].
    rewrite (generate_unique_id_fields c t E) in H. now injection H.
  - exfalso. revert H E.
    unfold generate_unique_id, u_id, id_keys, str_fields, getitem, fields_of.
    repeat match goal with
           | |- context [c !! ?k] => destruct (c !! k); simpl
           end; intros; discriminate.
Qed.

(** The broker form never commits. *)
Lemma configure_mqtt_form_not_entry (K : Constants)
    (user_input : option dict) (errors : gmap conf_key error_code)
    (s s' : ChirpConfigFlow) (title : string) (d o : dict) :
  configure_mqtt_form K user_input errors s
  <> (s', Ok (async_create_entry title d o)).
Proof.
  unfold configure_mqtt_form, default_or_item. unfold_step.
  destruct user_input as [ui|]; [|discriminate].
  destruct (not_ (Some ui)); [discriminate|]. unfold getitem.
  repeat match goal with
         | |- context [ui !! ?k] => destruct (ui !! k)
         end; discriminate.
Qed.

(** A nested application step leaves the tenant where the tenant step put
    it. *)
Lemma select_application_keeps_tenant (W : World) (K : Constants)
    (entries : list ConfigEntry) (s : ChirpConfigFlow)
    (name tenant_id : string) :
  holds_tenant s name tenant_id ->
  holds_tenant (fst (async_step_select_application W K entries None s))
    name tenant_id.
Proof.
  intros (d & Hin & Hd & Hid).
  unfold async_step_select_application. unfold_step.
  destruct (_apps_list s) as [apps|]; [|now exists d].
  destruct (bool_decide (length (keys apps) = 1%nat)); [|now exists d].
  rewrite Hin. simpl_flow. unfold getitem. rewrite lookup_singleton_eq.
  unfold listing_item.
  destruct (apps !! hd EmptyString (keys apps)) as [app_id|]; simpl_flow.
  - eexists. split; [reflexivity|]. split; [|assumption].
    rewrite lookup_insert_ne by discriminate.
    rewrite lookup_union_r by (now apply lookup_singleton_ne). assumption.
  - eexists. split; [reflexivity|]. split; [|assumption].
    rewrite lookup_union_r by (now apply lookup_singleton_ne). assumption.
Qed.

(** C3, as stated, fails: with the tenant "Acme" of identifier "t1" and the
    application "Sensors" of identifier "a1", the unique id of the
    committed entry is the digest of the string that has the names, not the
    one that has the identifiers. *)
Lemma unique_id_hashes_names_not_identifiers :
  let '(s, r) :=
    async_step_configure_mqtt Sample.W_one Sample.K0 []
      (Some (Sample.broker "broker")) (Sample.session Sample.W_one) in
  _tenant_id s = Some "t1"
  /\ _app_id s = Some "a1"
  /\ (exists d o, r = Ok (async_create_entry "ChirpStack" d o))
  /\ context_unique_id s
     = Some (hashlib.hexdigest (hashlib.md5 (encode
         "host8080AcmeSensorsbroker1883homeassistant")))
  /\ context_unique_id s
     <> Some (hashlib.hexdigest (hashlib.md5 (encode
          "host8080t1a1broker1883homeassistant"))).
Proof.
  vm_compute. repeat split; try discriminate.
  eexists _, _. reflexivity.
Qed.

(** C3, amended: the tenant and application components of the hashed tuple
    are the display names.  The tenant step puts the selected name under
    [CONF_TENANT] and keeps the identifier in [_tenant_id]; the application
    step puts the selected name under [CONF_APPLICATION] and the identifier
    under [CONF_APPLICATION_ID]; the unique id of a commit is the
    fingerprint of the tuple read from the committed data, whose tenant and
    application fields are these names. *)
Theorem unique_id_over_display_names (W : World) (K : Constants)
    (entries : list ConfigEntry) (s : ChirpConfigFlow)
    (user_input : option dict) (ui : dict) :
  (forall (tenants : listing) (d c : dict) (name tenant_id : string),
     _tenants_list s = Some tenants ->
     effective_selection CONF_TENANT tenants user_input = Some ui ->
     _input s = Some d -> _grpc_channel s = Some c ->
     ui !! CONF_TENANT = Some (VStr name) ->
     tenants !! name = Some tenant_id ->
     holds_tenant (fst (async_step_select_tenant W K entries user_input s))
       name tenant_id)
  /\ (forall (apps : listing) (d : dict) (name app_id tn tid : string),
        _apps_list s = Some apps ->
        effective_selection CONF_APPLICATION apps user_input = Some ui ->
        _input s = Some d ->
        ui !! CONF_APPLICATION = Some (VStr name) ->
        apps !! name = Some app_id ->
        ui !! CONF_TENANT = None ->
        holds_tenant s tn tid ->
        let s' :=
          fst (async_step_select_application W K entries user_input s) in
        holds_application s' name app_id /\ holds_tenant s' tn tid)
  /\ (forall (tn tid an aid title : string) (d o : dict)
             (s' : ChirpConfigFlow),
        holds_tenant s tn tid ->
        holds_application s an aid ->
        ui !! CONF_TENANT = None ->
        ui !! CONF_APPLICATION = None ->
        async_step_configure_mqtt W K entries (Some ui) s
        = (s', Ok (async_create_entry title d o)) ->
        exists t,
          fields_of d = Some t
          /\ tenant t = VStr tn /\ application t = VStr an
          /\ context_unique_id s' = Some (fingerprint t)).
Proof.
  split; [|split].
  - intros tenants d c name tenant_id Ht Hsel Hin Hc Hui Hid.
    rewrite (select_tenant_selection W K entries s user_input tenants ui d c
               name tenant_id Ht Hsel Hin Hc Hui Hid).
    assert (Hu : (ui ∪ d) !! CONF_TENANT = Some (VStr name))
      by now apply lookup_union_Some_l.
    destruct (get_tenant_applications W c tenant_id) as [apps | x].
    + destruct (bool_decide (apps = ∅)).
      * exists (ui ∪ d). repeat split; assumption.
      * apply select_application_keeps_tenant.
        exists (ui ∪ d). repeat split; assumption.
    + exists (ui ∪ d). repeat split; assumption.
  - intros apps d name app_id tn tid Ha Hsel Hin Hui Hid Hnt Hten.
    rewrite (select_application_selection W K entries s user_input apps ui d
               name app_id Ha Hsel Hin Hui Hid).
    cbn [fst]. unfold application_selected.
    destruct Hten as (d0 & Hin0 & Hd0 & Htid).
    rewrite Hin in Hin0. injection Hin0 as <-.
    split.
    + eexists. split; [reflexivity|]. repeat split.
      * rewrite lookup_insert_ne by discriminate.
        now apply lookup_union_Some_l.
      * apply lookup_insert_eq.
    + eexists. split; [reflexivity|]. split; [|assumption].
      rewrite lookup_insert_ne by discriminate.
      now rewrite lookup_union_r.
  - intros tn tid an aid title d o s' (d1 & Hin1 & Hd1 & _)
           (d2 & Hin2 & Hd2 & _) Hnt Hna.
    rewrite Hin1 in Hin2. injection Hin2 as <-.
    unfold async_step_configure_mqtt. unfold_step.
    rewrite Hin1. simpl_flow.
    destruct (generate_unique_id (ui ∪ d1)) as [uid | x] eqn:Hgen.
    + simpl_flow. destruct (configured entries uid).
      * intros H. discriminate H.
      * simpl_flow.
        destruct (ChirpToHA W (ui ∪ d1) (_grpc_channel s)) as [[] | x].
        -- intros H. injection H as <- _ <- _.
           destruct (generate_unique_id_Ok_inv _ _ Hgen) as (t & Ht & ->).
           exists t. split; [assumption|].
           apply fields_of_lookups in Ht.
           destruct Ht as (_ & _ & Ht3 & Ht4 & _).
           rewrite lookup_union_r in Ht3 by assumption.
           rewrite lookup_union_r in Ht4 by assumption.
           rewrite Hd1 in Ht3. rewrite Hd2 in Ht4.
           injection Ht3 as <-. injection Ht4 as <-.
           repeat split.
        -- unfold getitem.
           destruct (ui !! CONF_MQTT_SERVER); [|intros H; discriminate H].
           destruct (ui !! CONF_MQTT_PORT); [|intros H; discriminate H].
           intros H. now apply configure_mqtt_form_not_entry in H.
    + unfold getitem.
      destruct (ui !! CONF_MQTT_SERVER); [|intros H; discriminate H].
      destruct (ui !! CONF_MQTT_PORT); [|intros H; discriminate H].
      intros H. now apply configure_mqtt_form_not_entry in H.
Qed.

Lemma unique_id_over_display_names_witness :
  exists t,
    fields_of (Sample.broker "broker" ∪ Sample.session_input) = Some t
    /\ tenant t = VStr "Acme" /\ application t = VStr "Sensors"
    /\ context_unique_id
         (fst (async_step_configure_mqtt Sample.W_one Sample.K0 []
                 (Some (Sample.broker "broker"))
                 (Sample.session Sample.W_one)))
       = Some (fingerprint t).
Proof.
  apply (proj2 (proj2 (unique_id_over_display_names Sample.W_one Sample.K0 []
                         (Sample.session Sample.W_one) None
                         (Sample.broker "broker")))
           "Acme" "t1" "Sensors" "a1" "ChirpStack"
           (Sample.broker "broker" ∪ Sample.session_input)
           (default_options Sample.K0)).
  - exists Sample.session_input. vm_compute. repeat split.
  - exists Sample.session_input. vm_compute. repeat split.
  - reflexivity.
  - reflexivity.
  - vm_compute; reflexivity.
Defined.

(** ** The options flow *)

Lemma with_mqtt_settings_Ok (entry_data ui cfg : dict) :
  with_mqtt_settings entry_data ui = Ok cfg ->
  exists v1 v2 v3 v4 v5 v6,
    ui !! CONF_MQTT_SERVER = Some v1 /\ ui !! CONF_MQTT_PORT = Some v2 /\
    ui !! CONF_MQTT_USER = Some v3 /\ ui !! CONF_MQTT_PWD = Some v4 /\
    ui !! CONF_MQTT_DISC = Some v5 /\
    ui !! CONF_MQTT_CHIRPSTACK_PREFIX = Some v6 /\
    cfg = <[CONF_MQTT_CHIRPSTACK_PREFIX := v6]>
          (<[CONF_MQTT_DISC := v5]>
          (<[CONF_MQTT_PWD := v4]>
          (<[CONF_MQTT_USER := v3]>
          (<[CONF_MQTT_PORT := v2]>
          (<[CONF_MQTT_SERVER := v1]> entry_data))))).
Proof.
  unfold with_mqtt_settings, res_bind, getitem.
  repeat match goal with
         | |- context [ui !! ?k] =>
             destruct (ui !! k); [|intros H; discriminate H]
         end.
  intros H. injection H as <-. do 6 eexists. repeat split; reflexivity.
Qed.

Lemma has_mqtt_keys_settings (entry_data ui : dict) :
  has_keys ui mqtt_keys ->
  exists cfg, with_mqtt_settings entry_data ui = Ok cfg.
Proof.
  unfold has_keys, mqtt_keys. rewrite !Forall_cons.
  intros ([v1 H1] & [v2 H2] & [v3 H3] & [v4 H4] & [v5 H5] & [v6 H6] & _).
  unfold with_mqtt_settings, res_bind, getitem.
  rewrite H1, H2, H3, H4, H5, H6. eexists. reflexivity.
Qed.

Lemma has_options_keys_options (ui : dict) :
  has_keys ui options_keys -> exists od, options_of ui = Ok od.
Proof.
  unfold has_keys, options_keys. rewrite !Forall_cons.
  intros ([v1 H1] & [v2 H2] & [v3 H3] & [v4 H4] & [v5 H5] & [v6 H6] & _).
  unfold options_of, res_bind, getitem.
  rewrite H1, H2, H3, H4, H5, H6. eexists. reflexivity.
Qed.

(** The overlay of the six settings leaves every other key alone and gives
    the six keys the submitted values. *)
Lemma with_mqtt_settings_lookup (entry_data ui cfg : dict) (k : conf_key) :
  with_mqtt_settings entry_data ui = Ok cfg ->
  cfg !! k = if bool_decide (k ∈ mqtt_keys) then ui !! k
             else entry_data !! k.
Proof.
  intros H. apply with_mqtt_settings_Ok in H.
  destruct H as (v1 & v2 & v3 & v4 & v5 & v6
                 & H1 & H2 & H3 & H4 & H5 & H6 & ->).
  destruct k; vm_compute bool_decide; cbv iota;
    repeat (first [ rewrite lookup_insert_eq; congruence
                  | rewrite lookup_insert_ne by discriminate ]);
    reflexivity.
Qed.

(** The step when no broker field has changed. *)
Lemma init_unchanged (W : World) (K : Constants) (e : ConfigEntry)
    (tr : list event) (ui : dict) :
  mqtt_changed ui (data e) = false ->
  async_step_init W K (Some ui) {| config_entry := e; options_calls := tr |}
  = match options_of ui with
    | Ok od => ({| config_entry := e; options_calls := tr |},
                Ok (async_create_entry EmptyString od ∅))
    | Raise x => ({| config_entry := e; options_calls := tr |}, Raise x)
    end.
Proof.
  intros H. unfold async_step_init. unfold_step. simpl_flow. rewrite H.
  rewrite bool_decide_eq_true_2 by reflexivity.
  now destruct (options_of ui).
Qed.

(** The step when a broker field has changed and the submission has the
    six broker fields. *)
Lemma init_changed (W : World) (K : Constants) (e : ConfigEntry)
    (tr : list event) (ui cfg : dict) :
  mqtt_changed ui (data e) = true ->
  with_mqtt_settings (data e) ui = Ok cfg ->
  async_step_init W K (Some ui) {| config_entry := e; options_calls := tr |}
  = match ChirpGrpc W (data e) with
    | Raise _ =>
        ({| config_entry := e;
            options_calls := tr ++ [Call_ChirpGrpc (data e)] |},
         Ok (init_form K e conn_failed))
    | Ok _ =>
        match ChirpToHA W cfg (Some (data e)) with
        | Raise _ =>
            ({| config_entry := e;
                options_calls :=
                  tr ++ [Call_ChirpGrpc (data e); Call_ChirpToHA cfg] |},
             Ok (init_form K e conn_failed))
        | Ok _ =>
            let s' :=
              {| config_entry :=
                   {| unique_id := unique_id e; data := cfg;
                      options := options e |};
                 options_calls :=
                   tr ++ [Call_ChirpGrpc (data e); Call_ChirpToHA cfg;
                          Call_mqtt_close; Call_grpc_close] |} in
            match options_of ui with
            | Ok od => (s', Ok (async_create_entry EmptyString od ∅))
            | Raise x => (s', Raise x)
            end
        end
    end.
Proof.
  intros Hc Hcfg.
  destruct (with_mqtt_settings_Ok _ _ _ Hcfg)
    as (v1 & v2 & _ & _ & _ & _ & H1 & H2 & _).
  unfold async_step_init, test_mqtt_connection. unfold_step. simpl_flow.
  rewrite Hc, Hcfg. simpl_flow. unfold getitem. rewrite H1, H2.
  assert (Hne : bool_decide (conn_failed = ∅) = false).
  { apply bool_decide_eq_false. unfold conn_failed.
    apply insert_non_empty. }
  fold conn_failed.
  destruct (ChirpGrpc W (data e)) as [[] | x]; simpl_flow.
  - destruct (ChirpToHA W cfg (Some (data e))) as [[] | x]; simpl_flow.
    + rewrite Hcfg. simpl_flow.
      rewrite bool_decide_eq_true_2 by reflexivity.
      rewrite <- !app_assoc. cbn [app].
      now destruct (options_of ui).
    + rewrite Hne. rewrite <- !app_assoc. reflexivity.
  - rewrite Hne. reflexivity.
Qed.

(** Membership in an explicit list of calls or keys. *)
Ltac in_calls :=
  repeat first [apply list_elem_of_here | apply list_elem_of_further].

Ltac inv_calls H :=
  repeat (apply elem_of_cons in H;
          destruct H as [H | H];
          [first [discriminate H | injection H as ->] |]);
  try (now apply elem_of_nil in H).

Lemma py_eqb_refl (v : value) : py_eqb v v = true.
Proof. destruct v; simpl; now apply bool_decide_eq_true. Qed.

Lemma get_ne_same (ui d : dict) (k : conf_key) :
  ui !! k = d !! k -> get_ne ui d k = false.
Proof.
  intros H. unfold get_ne. rewrite H.
  destruct (d !! k); [|reflexivity]. now rewrite py_eqb_refl.
Qed.

Lemma mqtt_changed_iff (ui d : dict) :
  mqtt_changed ui d = true <-> broker_field_differs ui d.
Proof.
  unfold mqtt_changed, broker_field_differs, mqtt_keys.
  rewrite !orb_true_iff. split.
  - intros [[[[[H | H] | H] | H] | H] | H];
      eexists; (split; [|exact H]); in_calls.
  - intros (k & Hk & H).
    rewrite !elem_of_cons in Hk.
    destruct Hk as [-> | [-> | [-> | [-> | [-> | [-> | Hk]]]]]]; auto 10.
    now apply elem_of_nil in Hk.
Qed.

Lemma mqtt_unchanged_identical (ui d : dict) :
  (forall k, k ∈ mqtt_keys -> ui !! k = d !! k) -> mqtt_changed ui d = false.
Proof.
  intros H. unfold mqtt_changed.
  rewrite !get_ne_same; [reflexivity | apply H; unfold mqtt_keys; in_calls ..].
Qed.

(** The dictionary of options that the step builds has the six option
    keys, with the submitted values, and no other key. *)
Lemma options_of_lookup (ui od : dict) (k : conf_key) :
  options_of ui = Ok od ->
  od !! k = if bool_decide (k ∈ options_keys) then ui !! k else None.
Proof.
  unfold options_of, res_bind, getitem.
  destruct (ui !! CONF_OPTIONS_START_DELAY) eqn:H1; [|discriminate].
  destruct (ui !! CONF_OPTIONS_RESTORE_AGE) eqn:H2; [|discriminate].
  destruct (ui !! CONF_OPTIONS_DEBUG_PAYLOAD) eqn:H3; [|discriminate].
  destruct (ui !! CONF_OPTIONS_LOG_LEVEL) eqn:H4; [|discriminate].
  destruct (ui !! CONF_OPTIONS_ONLINE_PER_DEVICE) eqn:H5; [|discriminate].
  destruct (ui !! CONF_OPTIONS_EXPIRE_AFTER) eqn:H6; [|discriminate].
  intros H. injection H as <-.
  destruct k; vm_compute bool_decide; cbv iota;
    repeat (first [ rewrite lookup_insert_eq; congruence
                  | rewrite lookup_insert_ne by discriminate ]);
    apply lookup_empty.
Qed.





Lemma endpoint_entry_outcomes_witness :
  (exists s',
     async_step_user Sample.W_tenants_fail Sample.K0 []
       (Some Sample.endpoint) new_ChirpConfigFlow
     = (s', Ok (endpoint_form (VStr "host") (VInt 8080) (VStr "0123456789")
                  {[CONF_API_SERVER := CONF_ERROR_CHIRP_CONN_FAILED]}))
     /\ _input s' = None /\ _tenants_list s' = None)
  /\ (exists s',
        async_step_user Sample.W_no_tenants Sample.K0 []
          (Some Sample.endpoint) new_ChirpConfigFlow
        = (s', Ok (endpoint_form (VStr "host") (VInt 8080)
                     (VStr "0123456789")
                     {[CONF_API_SERVER := CONF_CHIRP_NO_TENANTS]}))
        /\ _input s' = None
        /\ calls s'
           = [] ++ [Call_ChirpGrpc
                      (<[CONF_APPLICATION_ID := VStr ""]> Sample.endpoint);
                    Call_get_chirp_tenants])
  /\ async_step_user Sample.W_two Sample.K0 [] (Some Sample.endpoint)
       new_ChirpConfigFlow
     = match async_step_select_tenant Sample.W_two Sample.K0 [] None
               (endpoint_accepted
                  (<[CONF_APPLICATION_ID := VStr ""]> Sample.endpoint)
                  Sample.two_tenants new_ChirpConfigFlow) with
       | (s2, Ok r) => (s2, Ok r)
       | (s2, Raise _) =>
           (s2, Ok (endpoint_form (VStr "host") (VInt 8080)
                      (VStr "0123456789")
                      {[CONF_API_SERVER := CONF_ERROR_CHIRP_CONN_FAILED]}))
       end.
Proof.
  split; [|split].
  - apply (proj1 (endpoint_entry_outcomes Sample.W_tenants_fail Sample.K0 []
                    new_ChirpConfigFlow Sample.endpoint (VStr "host")
                    (VInt 8080) (VStr "0123456789")
                    eq_refl eq_refl eq_refl)
             (ExternalError "unavailable")).
    right. split; reflexivity.
  - apply (proj1 (proj2
             (endpoint_entry_outcomes Sample.W_no_tenants Sample.K0 []
                new_ChirpConfigFlow Sample.endpoint (VStr "host")
                (VInt 8080) (VStr "0123456789") eq_refl eq_refl eq_refl)));
      reflexivity.
  - apply (proj2 (proj2
             (endpoint_entry_outcomes Sample.W_two Sample.K0 []
                new_ChirpConfigFlow Sample.endpoint (VStr "host")
                (VInt 8080) (VStr "0123456789") eq_refl eq_refl eq_refl))
             Sample.two_tenants).
    + reflexivity.
    + reflexivity.
    + unfold Sample.two_tenants. apply insert_non_empty.
Defined.

Ltac inv_keys H :=
  repeat (apply elem_of_cons in H; destruct H as [-> | H]);
  try (now apply elem_of_nil in H).

(** What a submission to the options flow can do to the stored entry: the
    unique id stays, and the data either stay or become the stored data
    overlaid with the six submitted broker settings. *)
Lemma reconfigure_data (W : World) (K : Constants) (e : ConfigEntry)
    (ui : dict) :
  let '(e', r, tr) := reconfigure W K e ui in
  unique_id e' = unique_id e
  /\ (data e' = data e
      \/ (with_mqtt_settings (data e) ui = Ok (data e')
          /\ mqtt_changed ui (data e) = true)).
Proof.
  unfold reconfigure.
  destruct (mqtt_changed ui (data e)) eqn:Hc.
  - destruct (with_mqtt_settings (data e) ui) as [cfg | x] eqn:Hcfg.
    + rewrite (init_changed W K e [] ui cfg Hc Hcfg).
      destruct (ChirpGrpc W (data e)) as [[] | y];
        [destruct (ChirpToHA W cfg (Some (data e))) as [[] | y];
         [destruct (options_of ui) |] |];
        cbn [options_flow_finish config_entry unique_id data];
        (split; [reflexivity|]); auto.
    + unfold async_step_init, test_mqtt_connection. unfold_step. simpl_flow.
      rewrite Hc, Hcfg. unfold getitem.
      destruct (ui !! CONF_MQTT_SERVER);
        [destruct (ui !! CONF_MQTT_PORT) |];
        cbn [options_flow_finish config_entry unique_id data];
        try rewrite bool_decide_eq_false_2 by apply insert_non_empty;
        cbn [options_flow_finish config_entry unique_id data];
        (split; [reflexivity|]); auto.
  - rewrite (init_unchanged W K e [] ui Hc).
    destruct (options_of ui);
      cbn [options_flow_finish config_entry unique_id data];
      (split; [reflexivity|]); auto.
Qed.

(** C2, as stated, fails: a successful submission that names another
    broker replaces the broker host of the stored data, one of the eight
    fields of the tuple, and leaves the stored unique id as it was.  Here
    the second of two entries is given the broker of the first: afterwards
    the two entries have the same eight fields, hence the same fingerprint,
    under two different stored unique ids. *)
Lemma reconfiguration_changes_broker_fields :
  let first := Sample.entry "broker" in
  let second := Sample.entry "other" in
  let '(second', r, tr) :=
    reconfigure Sample.W_one Sample.K0 second
      (Sample.submission "broker" "info") in
  (exists od, r = Ok (async_create_entry EmptyString od ∅))
  /\ data second !! CONF_MQTT_SERVER = Some (VStr "other")
  /\ data second' !! CONF_MQTT_SERVER = Some (VStr "broker")
  /\ unique_id second' = unique_id second
  /\ generate_unique_id (data second') <> generate_unique_id (data second)
  /\ generate_unique_id (data second') = generate_unique_id (data first)
  /\ unique_id second' <> unique_id first.
Proof.
  vm_compute. split; [eexists; reflexivity|].
  repeat split; try reflexivity; discriminate.
Qed.

(** C2, amended: a submission to the options flow never changes the four
    directory-side fields of the tuple (directory host, directory port,
    tenant, application); when a broker field differs and the submission is
    accepted, the four broker-side fields of the tuple take the submitted
    values; when no broker field differs, the data are left as they
    were. *)
Theorem reconfiguration_keeps_directory_fields (W : World) (K : Constants)
    (e : ConfigEntry) (ui : dict) :
  let '(e', r, tr) := reconfigure W K e ui in
  (forall k, k ∈ directory_keys -> data e' !! k = data e !! k)
  /\ (broker_field_differs ui (data e) ->
      (exists title d o, r = Ok (async_create_entry title d o)) ->
      forall k, k ∈ broker_id_keys -> data e' !! k = ui !! k)
  /\ (~ broker_field_differs ui (data e) -> data e' = data e).
Proof.
  pose proof (reconfigure_data W K e ui) as H.
  destruct (reconfigure W K e ui) as [[e' r] tr] eqn:E.
  destruct H as [_ Hd].
  split; [|split].
  - intros k Hk. destruct Hd as [-> | [Hd _]]; [reflexivity|].
    rewrite (with_mqtt_settings_lookup _ _ _ k Hd).
    unfold directory_keys in Hk. inv_keys Hk; reflexivity.
  - intros Hdiff (title & d & o & ->) k Hk.
    apply mqtt_changed_iff in Hdiff.
    destruct (with_mqtt_settings (data e) ui) as [cfg | x] eqn:Hcfg.
    + assert (He' : data e' = cfg).
      { revert E. unfold reconfigure.
        rewrite (init_changed W K e [] ui cfg Hdiff Hcfg).
        destruct (ChirpGrpc W (data e)) as [[] | y];
          [destruct (ChirpToHA W cfg (Some (data e))) as [[] | y];
           [destruct (options_of ui) |] |];
          intros E; injection E as <- E _; try discriminate E; reflexivity. }
      rewrite He', (with_mqtt_settings_lookup _ _ _ k Hcfg).
      unfold broker_id_keys in Hk. inv_keys Hk; reflexivity.
    + exfalso. revert E. unfold reconfigure, async_step_init,
        test_mqtt_connection. unfold_step. simpl_flow.
      rewrite Hdiff, Hcfg. unfold getitem.
      destruct (ui !! CONF_MQTT_SERVER);
        [destruct (ui !! CONF_MQTT_PORT) |];
        try rewrite bool_decide_eq_false_2 by apply insert_non_empty;
        intros E; injection E as _ E _; discriminate E.
  - intros Hsame. destruct Hd as [Hd | [_ Hc]]; [exact Hd|].
    exfalso. apply Hsame. now apply mqtt_changed_iff.
Qed.

Lemma reconfiguration_keeps_directory_fields_witness :
  let e' :=
    fst (fst (reconfigure Sample.W_one Sample.K0 (Sample.entry "other")
                (Sample.submission "broker" "info"))) in
  (forall k, k ∈ directory_keys ->
     data e' !! k = data (Sample.entry "other") !! k)
  /\ (forall k, k ∈ broker_id_keys ->
        data e' !! k = Sample.submission "broker" "info" !! k).
Proof.
  pose proof (reconfiguration_keeps_directory_fields Sample.W_one Sample.K0
                (Sample.entry "other") (Sample.submission "broker" "info"))
    as H.
  assert (E : reconfigure Sample.W_one Sample.K0 (Sample.entry "other")
                (Sample.submission "broker" "info")
              = ({| unique_id := unique_id (Sample.entry "other");
                    data := data (Sample.entry "broker");
                    options := sample_options "info" |},
                 Ok (async_create_entry EmptyString (sample_options "info")
                       ∅),
                 [Call_ChirpGrpc (data (Sample.entry "other"));
                  Call_ChirpToHA (data (Sample.entry "broker"));
                  Call_mqtt_close; Call_grpc_close]))
    by (vm_compute; reflexivity).
  rewrite E in H. rewrite E. cbn [fst].
  destruct H as (H1 & H2 & _). split; [exact H1|].
  apply H2.
  - exists CONF_MQTT_SERVER. split; [in_calls | vm_compute; reflexivity].
  - eexists _, _, _. reflexivity.
Defined.

(** * Further properties of the code *)

(** ** [generate_unique_id]: missing keys, format of the result *)

Lemma str_fields_Ok (c : dict) (ks : list conf_key) (l : list string) :
  str_fields c ks = Ok l -> has_keys c ks.
Proof.
  revert l. induction ks as [|k ks IH]; intros l H; [constructor|].
  simpl in H. unfold getitem in H.
  destruct (c !! k) as [v|] eqn:E; [|discriminate H].
  destruct (str_fields c ks) as [l'|]; [|discriminate H].
  constructor; [now exists v | now apply (IH l')].
Qed.

Lemma str_fields_Raise (c : dict) (ks : list conf_key) (e : exn) :
  str_fields c ks = Raise e ->
  exists pre k post,
    ks = pre ++ k :: post /\ e = KeyError k /\ c !! k = None
    /\ has_keys c pre.
Proof.
  induction ks as [|k ks IH]; intros H; [discriminate H|].
  simpl in H. unfold getitem in H.
  destruct (c !! k) as [v|] eqn:E.
  - destruct (str_fields c ks) as [l'|e'] eqn:E'; [discriminate H|].
    injection H as <-.
    destruct (IH eq_refl) as (pre & k' & post & -> & -> & Hk & Hpre).
    exists (k :: pre), k', post. repeat split; try assumption.
    constructor; [now exists v | assumption].
  - injection H as <-. exists [], k, ks. repeat split; [assumption|constructor].
Qed.

(** X1: [generate_unique_id] returns a digest exactly for the
    configurations that have the eight keys; otherwise it raises
    [KeyError] for the first key of the tuple, in its order, that the
    configuration lacks. *)
Theorem generate_unique_id_missing_key (c : dict) :
  match generate_unique_id c with
  | Ok _ => has_keys c id_keys
  | Raise e =>
      exists pre k post,
        id_keys = pre ++ k :: post /\ e = KeyError k /\ c !! k = None
        /\ has_keys c pre
  end.
Proof.
  unfold generate_unique_id, u_id.
  destruct (str_fields c id_keys) as [l|e] eqn:E.
  - now apply (str_fields_Ok c id_keys l).
  - now apply str_fields_Raise.
Qed.

Lemma length_le_bytes (n : nat) (x : Z) :
  length (hashlib.le_bytes n x) = n.
Proof.
  revert x. induction n as [|n IH]; intros x; [reflexivity|].
  simpl. now rewrite IH.
Qed.

Lemma length_md5 (msg : list Z) : length (hashlib.md5 msg) = 16%nat.
Proof.
  unfold hashlib.md5.
  destruct (hashlib.process _ _ _) as [[[a b] c] d].
  rewrite !length_app, !length_le_bytes. reflexivity.
Qed.

Lemma length_string_of_list_ascii (l : list ascii) :
  String.length (string_of_list_ascii l) = length l.
Proof. induction l as [|a l IH]; [reflexivity|]. simpl. now rewrite IH. Qed.

Lemma length_hexdigest (bs : list Z) :
  String.length (hashlib.hexdigest bs) = (2 * length bs)%nat.
Proof.
  unfold hashlib.hexdigest. rewrite length_string_of_list_ascii.
  induction bs as [|b bs IH]; [reflexivity|].
  cbn [flat_map length]. rewrite length_app, IH.
  unfold hashlib.hex_byte. cbn [length]. lia.
Qed.

Lemma hex_digit_in (n : Z) :
  hashlib.hex_digit n ∈ list_ascii_of_string "0123456789abcdef".
Proof.
  unfold hashlib.hex_digit. apply list_elem_of_In.
  destruct (nth_in_or_default (Z.to_nat n)
              (list_ascii_of_string "0123456789abcdef") "0"%char)
    as [H | ->]; [exact H|].
  simpl. now left.
Qed.

Lemma hexdigest_chars (bs : list Z) :
  Forall (fun a => a ∈ list_ascii_of_string "0123456789abcdef")
         (list_ascii_of_string (hashlib.hexdigest bs)).
Proof.
  unfold hashlib.hexdigest. rewrite list_ascii_of_string_of_list_ascii.
  induction bs as [|b bs IH]; [constructor|].
  cbn [flat_map]. unfold hashlib.hex_byte at 1. cbn [app].
  constructor; [apply hex_digit_in|].
  constructor; [apply hex_digit_in|]. exact IH.
Qed.

(** X2: a unique id is a string of thirty-two characters, each a decimal
    digit or a lower-case letter from a to f. *)
Theorem generate_unique_id_format (c : dict) (u : string) :
  generate_unique_id c = Ok u ->
  String.length u = 32%nat
  /\ Forall (fun a => a ∈ list_ascii_of_string "0123456789abcdef")
            (list_ascii_of_string u).
Proof.
  unfold generate_unique_id. destruct (u_id c) as [m|]; [|discriminate].
  intros H. injection H as <-. split.
  - now rewrite length_hexdigest, length_md5.
  - apply hexdigest_chars.
Qed.

Lemma generate_unique_id_format_witness :
  String.length "2c364dde3190121653e64388a607c019" = 32%nat
  /\ Forall (fun a => a ∈ list_ascii_of_string "0123456789abcdef")
            (list_ascii_of_string "2c364dde3190121653e64388a607c019").
Proof.
  apply (generate_unique_id_format
           (Sample.config "host" 8080 "Acme" "Sensors" "broker" 1883)
           "2c364dde3190121653e64388a607c019").
  vm_compute; reflexivity.
Defined.

Lemma str_fields_agree (c1 c2 : dict) (ks : list conf_key) :
  (forall k, k ∈ ks -> c1 !! k = c2 !! k) ->
  str_fields c1 ks = str_fields c2 ks.
Proof.
  induction ks as [|k ks IH]; intros H; [reflexivity|].
  simpl. unfold getitem. rewrite (H k) by apply list_elem_of_here.
  rewrite IH; [reflexivity|].
  intros k' Hk'. apply H. now apply list_elem_of_further.
Qed.

(** X3: [generate_unique_id] reads the eight keys and nothing else: two
    configurations with the same lookups at these keys, present or absent,
    get the same result, digest or [KeyError]; the API key, the broker user
    and password and the application identifier never matter. *)
Theorem generate_unique_id_reads_id_keys_only (c1 c2 : dict) :
  (forall k, k ∈ id_keys -> c1 !! k = c2 !! k) ->
  generate_unique_id c1 = generate_unique_id c2.
Proof.
  intros H. unfold generate_unique_id, u_id.
  now rewrite (str_fields_agree c1 c2 id_keys H).
Qed.

Lemma generate_unique_id_reads_id_keys_only_witness :
  generate_unique_id
    (<[CONF_MQTT_PWD := VStr "changed"]>
       (delete CONF_API_KEY
          (Sample.config "host" 8080 "Acme" "Sensors" "broker" 1883)))
  = generate_unique_id
      (Sample.config "host" 8080 "Acme" "Sensors" "broker" 1883).
Proof.
  apply (generate_unique_id_reads_id_keys_only
           (<[CONF_MQTT_PWD := VStr "changed"]>
              (delete CONF_API_KEY
                 (Sample.config "host" 8080 "Acme" "Sensors" "broker" 1883)))
           (Sample.config "host" 8080 "Acme" "Sensors" "broker" 1883)).
  intros k Hk. unfold id_keys in Hk. inv_keys Hk; vm_compute; reflexivity.
Defined.

(** ** The configuration flow: what each step calls and answers *)

(** Case analysis on whatever a step still branches on, innermost
    scrutinee first. *)
Ltac innermost scrut :=
  lazymatch scrut with
  | context [match _ with _ => _ end] => fail
  | _ => idtac
  end.

Ltac case_step :=
  repeat (simpl_flow;
          match goal with
          | |- context [match ?scrut with _ => _ end] =>
              innermost scrut; destruct scrut eqn:?
          | |- context [if ?scrut then _ else _] =>
              innermost scrut; destruct scrut eqn:?
          end).

Lemma select_application_outcome (W : World) (K : Constants)
    (entries : list ConfigEntry) (user_input : option dict)
    (s : ChirpConfigFlow) :
  let '(s', r) := async_step_select_application W K entries user_input s in
  calls s' = calls s
  /\ _grpc_channel s' = _grpc_channel s
  /\ _tenants_list s' = _tenants_list s
  /\ _tenant_id s' = _tenant_id s
  /\ _apps_list s' = _apps_list s
  /\ context_unique_id s' = context_unique_id s
  /\ (forall fr, r = Ok fr -> is_form fr).
Proof.
  unfold async_step_select_application, async_step_configure_mqtt,
    configure_mqtt_form, default_or_item, listing_item, getitem,
    select_application_form.
  unfold_step. case_step; simpl_flow;
    (repeat split; try reflexivity; try congruence);
    intros fr Hfr; try discriminate Hfr; injection Hfr as <-; exact I.
Qed.

(** X4: the application step never calls the directory or the broker, for
    any submission: the calls, the channel, the tenants, the selected
    tenant and the unique id of the flow are what they were; and when it
    returns, it returns a form. *)
Theorem select_application_makes_no_call (W : World) (K : Constants)
    (entries : list ConfigEntry) (user_input : option dict)
    (s : ChirpConfigFlow) :
  let '(s', r) := async_step_select_application W K entries user_input s in
  calls s' = calls s
  /\ _grpc_channel s' = _grpc_channel s
  /\ _tenants_list s' = _tenants_list s
  /\ _tenant_id s' = _tenant_id s
  /\ context_unique_id s' = context_unique_id s
  /\ (forall fr, r = Ok fr -> is_form fr).
Proof.
  pose proof (select_application_outcome W K entries user_input s) as H.
  destruct (async_step_select_application W K entries user_input s)
    as [s' r].
  destruct H as (H1 & H2 & H3 & H4 & _ & H6 & H7). repeat split; assumption.
Qed.

Ltac frame_goal :=
  first [ reflexivity | assumption | congruence | now left
        | discriminate
        | (let fr := fresh "fr" in let Hfr := fresh "Hfr" in
           intros fr Hfr;
           first [discriminate Hfr | injection Hfr as <-; exact I]) ].

Lemma select_tenant_outcome (W : World) (K : Constants)
    (entries : list ConfigEntry) (user_input : option dict)
    (s : ChirpConfigFlow) :
  let '(s', r) := async_step_select_tenant W K entries user_input s in
  (calls s' = calls s
   \/ exists tenant_id,
        calls s' = calls s ++ [Call_get_tenant_applications tenant_id])
  /\ _grpc_channel s' = _grpc_channel s
  /\ _tenants_list s' = _tenants_list s
  /\ context_unique_id s' = context_unique_id s
  /\ (forall fr, r = Ok fr -> is_form fr).
Proof.
  unfold async_step_select_tenant. unfold_step.
  destruct (_tenants_list s) as [tenants|] eqn:Ht;
    [|repeat split; frame_goal].
  destruct (if bool_decide (length (keys tenants) = 1%nat)
            then Some {[CONF_TENANT := VStr (hd EmptyString (keys tenants))]}
            else user_input) as [ui|];
    [|repeat split; frame_goal].
  destruct (_input s) as [d|]; simpl_flow; [|repeat split; frame_goal].
  destruct (getitem ui CONF_TENANT) as [v|]; simpl_flow;
    [|repeat split; frame_goal].
  destruct (listing_item tenants v) as [tenant_id|]; simpl_flow;
    [|repeat split; frame_goal].
  destruct (_grpc_channel s) as [c|] eqn:Hc; simpl_flow;
    [|repeat split; frame_goal].
  destruct (get_tenant_applications W c tenant_id) as [apps|]; simpl_flow;
    [|split; [right; now exists tenant_id | repeat split; frame_goal]].
  destruct (bool_decide (apps = ∅)); simpl_flow.
  - split; [right; now exists tenant_id | repeat split; frame_goal].
  - match goal with
    | |- context [async_step_select_application W K entries None ?s1] =>
        pose proof (select_application_outcome W K entries None s1) as H;
        destruct (async_step_select_application W K entries None s1)
          as [s2 r2]
    end.
    cbn [calls _grpc_channel _tenants_list context_unique_id set_apps_list
         set_calls set_tenant_id set_input] in H.
    destruct H as (H1 & H2 & H3 & _ & _ & H6 & H7).
    destruct r2 as [fr2|x]; simpl_flow;
      (split; [right; exists tenant_id; exact H1|]);
      (split; [congruence|]); (split; [congruence|]);
      (split; [exact H6|]).
    + intros fr Hfr. injection Hfr as <-. now apply H7.
    + discriminate.
Qed.

(** The state in which the endpoint step leaves the flow, for any
    submission. *)
Lemma user_step_state (W : World) (K : Constants)
    (entries : list ConfigEntry) (ui : dict) (s : ChirpConfigFlow) :
  let ui' := <[CONF_APPLICATION_ID := VStr ""]> ui in
  let s' := fst (async_step_user W K entries (Some ui) s) in
  (exists tr, calls s' = calls s ++ tr
              /\ Forall (fun ev => directory_call ev = true) tr
              /\ (length tr <= 3)%nat)
  /\ _grpc_channel s'
     = match ChirpGrpc W ui' with
       | Ok _ => Some ui'
       | Raise _ => _grpc_channel s
       end
  /\ context_unique_id s' = context_unique_id s.
Proof.
  intros ui'. unfold async_step_user. cbn [fmap option_fmap option_map].
  fold ui'. unfold user_form, default_or_item. unfold_step.
  destruct (ChirpGrpc W ui') as [[]|x]; simpl_flow.
  - destruct (get_chirp_tenants W ui') as [tenants|x]; simpl_flow.
    + destruct (bool_decide (tenants = ∅)); simpl_flow.
      * rewrite <- app_assoc. cbn [app].
        case_step; cbn [fst]; simpl_flow;
          (split; [eexists; split; [reflexivity|];
                   split; [repeat constructor | simpl; lia] |]);
          split; reflexivity.
      * match goal with
        | |- context [async_step_select_tenant W K entries None ?s1] =>
            pose proof (select_tenant_outcome W K entries None s1) as H;
            destruct (async_step_select_tenant W K entries None s1)
              as [s2 r2]
        end.
        cbn [calls _grpc_channel _tenants_list context_unique_id
             set_input set_tenants_list set_calls set_grpc_channel] in H.
        rewrite <- app_assoc in H. cbn [app] in H.
        destruct H as (H1 & H2 & _ & H4 & _).
        assert (Hs2 :
          (exists tr, calls s2 = calls s ++ tr
                      /\ Forall (fun ev => directory_call ev = true) tr
                      /\ (length tr <= 3)%nat)
          /\ _grpc_channel s2 = Some ui'
          /\ context_unique_id s2 = context_unique_id s).
        { split; [|split; assumption].
          destruct H1 as [H1 | [tenant_id H1]]; rewrite H1.
          - eexists; split; [reflexivity|].
            split; [repeat constructor | simpl; lia].
          - rewrite <- app_assoc. cbn [app].
            eexists; split; [reflexivity|].
            split; [repeat constructor | simpl; lia]. }
        case_step; cbn [fst]; exact Hs2.
    + rewrite <- app_assoc. cbn [app].
      case_step; cbn [fst]; simpl_flow;
        (split; [eexists; split; [reflexivity|];
                 split; [repeat constructor | simpl; lia] |]);
        split; reflexivity.
  - case_step; cbn [fst]; simpl_flow;
      (split; [eexists; split; [reflexivity|];
               split; [repeat constructor | simpl; lia] |]);
      split; reflexivity.
Qed.

(** X5: a submission at the endpoint step that has the three fields of
    the form is always answered with a form: whatever the directory does,
    the step neither raises nor aborts nor commits.  On the way it makes
    at most three calls, all of them to the directory: it never contacts
    the broker and never closes a channel. *)
Theorem endpoint_step_answers_with_a_form (W : World) (K : Constants)
    (entries : list ConfigEntry) (ui : dict) (s : ChirpConfigFlow) :
  has_keys ui [CONF_API_SERVER; CONF_API_PORT; CONF_API_KEY] ->
  let '(s', r) := async_step_user W K entries (Some ui) s in
  (exists fr, r = Ok fr /\ is_form fr)
  /\ exists tr, calls s' = calls s ++ tr
                /\ Forall (fun ev => directory_call ev = true) tr
                /\ (length tr <= 3)%nat.
Proof.
  unfold has_keys. rewrite !Forall_cons.
  intros ([host Hh] & [port Hp] & [key Hk] & _).
  pose proof (user_step_state W K entries ui s) as Hst.
  cbv zeta in Hst. destruct Hst as (Hcalls & _ & _).
  destruct (async_step_user W K entries (Some ui) s) as [s' r] eqn:E.
  cbn [fst] in Hcalls. split; [|exact Hcalls].
  set (ui' := <[CONF_APPLICATION_ID := VStr ""]> ui).
  assert (Gh : getitem ui' CONF_API_SERVER = Ok host).
  { unfold getitem, ui'. rewrite lookup_insert_ne by discriminate.
    now rewrite Hh. }
  assert (Gp : getitem ui' CONF_API_PORT = Ok port).
  { unfold getitem, ui'. rewrite lookup_insert_ne by discriminate.
    now rewrite Hp. }
  assert (Gk : getitem ui' CONF_API_KEY = Ok key).
  { unfold getitem, ui'. rewrite lookup_insert_ne by discriminate.
    now rewrite Hk. }
  revert E. unfold async_step_user. cbn [fmap option_fmap option_map].
  fold ui'. unfold_step. rewrite Gh, Gp, Gk.
  destruct (ChirpGrpc W ui') as [[]|x]; simpl_flow.
  - destruct (get_chirp_tenants W ui') as [tenants|x]; simpl_flow.
    + destruct (bool_decide (tenants = ∅)); simpl_flow.
      * unfold ui'.
        rewrite (user_form_submitted K ui host port key) by assumption.
        intros E. injection E as _ <-. eexists. split; [reflexivity|exact I].
      * match goal with
        | |- context [async_step_select_tenant W K entries None ?s1] =>
            pose proof (select_tenant_outcome W K entries None s1) as H;
            destruct (async_step_select_tenant W K entries None s1)
              as [s2 [fr2|x]]
        end.
        -- destruct H as (_ & _ & _ & _ & H). intros E. injection E as _ <-.
           exists fr2. split; [reflexivity | now apply H].
        -- unfold ui'.
           rewrite (user_form_submitted K ui host port key) by assumption.
           intros E. injection E as _ <-.
           eexists. split; [reflexivity|exact I].
    + unfold ui'.
      rewrite (user_form_submitted K ui host port key) by assumption.
      intros E. injection E as _ <-. eexists. split; [reflexivity|exact I].
  - unfold ui'.
    rewrite (user_form_submitted K ui host port key) by assumption.
    intros E. injection E as _ <-. eexists. split; [reflexivity|exact I].
Qed.

Lemma endpoint_step_answers_with_a_form_witness :
  let '(s', r) :=
    async_step_user Sample.W_apps_fail Sample.K0 [] (Some Sample.endpoint)
      new_ChirpConfigFlow in
  (exists fr, r = Ok fr /\ is_form fr)
  /\ exists tr, calls s' = calls new_ChirpConfigFlow ++ tr
                /\ Forall (fun ev => directory_call ev = true) tr
                /\ (length tr <= 3)%nat.
Proof.
  apply (endpoint_step_answers_with_a_form Sample.W_apps_fail Sample.K0 []
           Sample.endpoint new_ChirpConfigFlow).
  vm_compute. repeat constructor; eexists; reflexivity.
Defined.

(** X6: the channel that the flow holds after the endpoint step is the
    one this submission opened, if the directory client could be
    constructed, and the one it held before otherwise; a channel held from
    an earlier submission is replaced without being closed.  [__del__]
    then closes the channel held, once, and does nothing when there is
    none. *)
Theorem endpoint_step_channel (W : World) (K : Constants)
    (entries : list ConfigEntry) (ui : dict) (s : ChirpConfigFlow) :
  let ui' := <[CONF_APPLICATION_ID := VStr ""]> ui in
  let s' := fst (async_step_user W K entries (Some ui) s) in
  _grpc_channel s'
  = match ChirpGrpc W ui' with
    | Ok _ => Some ui'
    | Raise _ => _grpc_channel s
    end
  /\ (exists tr, calls s' = calls s ++ tr /\ Call_grpc_close ∉ tr)
  /\ __del__ s'
     = (match _grpc_channel s' with
        | Some _ => set_calls (calls s' ++ [Call_grpc_close]) s'
        | None => s'
        end, Ok tt).
Proof.
  intros ui' s'.
  destruct (user_step_state W K entries ui s)
    as ((tr & Hcalls & Hdir & _) & Hch & _).
  fold ui' in Hch. fold s' in Hcalls, Hch.
  split; [exact Hch|]. split.
  - exists tr. split; [exact Hcalls|]. intros Hin.
    rewrite Forall_forall in Hdir. apply Hdir in Hin. discriminate Hin.
  - unfold __del__. unfold_step. now destruct (_grpc_channel s').
Qed.

(** ** The broker step: failure, commit, retry *)

Lemma not_empty_with_key (ui : dict) (k : conf_key) (v : value) :
  ui !! k = Some v -> not_ (Some ui) = false.
Proof.
  intros H. apply bool_decide_eq_false. intros ->.
  rewrite lookup_empty in H. discriminate H.
Qed.

(** X7: when the broker refuses the connection at the broker step, the
    step presents its form again with [CONF_ERROR_MQTT_CONN_FAILED] on the
    broker server field and the submitted values as defaults (the default
    of [const.py] for an absent vendor prefix); the broker client has been
    called once and not closed, the submission stays merged into the
    accumulated input, and nothing is stored. *)
Theorem broker_failure_shows_form_again (W : World) (K : Constants)
    (entries : list ConfigEntry) (s : ChirpConfigFlow) (d ui : dict)
    (uid : string) (x : exn) (server port user pwd disc : value) :
  _input s = Some d ->
  generate_unique_id (ui ∪ d) = Ok uid ->
  configured entries uid = false ->
  ChirpToHA W (ui ∪ d) (_grpc_channel s) = Raise x ->
  ui !! CONF_MQTT_SERVER = Some server ->
  ui !! CONF_MQTT_PORT = Some port ->
  ui !! CONF_MQTT_USER = Some user ->
  ui !! CONF_MQTT_PWD = Some pwd ->
  ui !! CONF_MQTT_DISC = Some disc ->
  exists s',
    async_step_configure_mqtt W K entries (Some ui) s
    = (s', Ok (broker_form server port user pwd disc
                 (get_default ui CONF_MQTT_CHIRPSTACK_PREFIX
                    (DEFAULT_MQTT_CHIRPSTACK_PREFIX K))
                 conn_failed))
    /\ calls s' = calls s ++ [Call_ChirpToHA (ui ∪ d)]
    /\ _input s' = Some (ui ∪ d)
    /\ forall r, config_flow_finish entries s' (Ok (broker_form server port
                   user pwd disc r conn_failed)) = entries.
Proof.
  intros Hin Hgen Hconf Hfail H1 H2 H3 H4 H5.
  exists (set_calls (calls s ++ [Call_ChirpToHA (ui ∪ d)])
            (set_context_unique_id (Some uid)
               (set_input (Some (ui ∪ d)) s))).
  split; [|split; [|split]; reflexivity].
  unfold async_step_configure_mqtt, configure_mqtt_form, default_or_item.
  unfold_step. rewrite Hin. simpl_flow. rewrite Hgen. simpl_flow.
  rewrite Hconf. simpl_flow. rewrite Hfail.
  rewrite (not_empty_with_key ui _ _ H1).
  unfold getitem. rewrite H1, H2, H3, H4, H5. reflexivity.
Qed.

Lemma broker_failure_shows_form_again_witness :
  exists s',
    async_step_configure_mqtt Sample.W_broker_down Sample.K0 []
      (Some (Sample.broker "broker")) (Sample.session Sample.W_one)
    = (s', Ok (broker_form (VStr "broker") (VInt 1883) (VStr "user")
                 (VStr "secret") (VStr "homeassistant")
                 (get_default (Sample.broker "broker")
                    CONF_MQTT_CHIRPSTACK_PREFIX
                    (DEFAULT_MQTT_CHIRPSTACK_PREFIX Sample.K0))
                 conn_failed))
    /\ calls s'
       = calls (Sample.session Sample.W_one)
         ++ [Call_ChirpToHA (Sample.broker "broker" ∪ Sample.session_input)]
    /\ _input s' = Some (Sample.broker "broker" ∪ Sample.session_input)
    /\ forall r, config_flow_finish [] s'
                   (Ok (broker_form (VStr "broker") (VInt 1883)
                          (VStr "user") (VStr "secret")
                          (VStr "homeassistant") r conn_failed)) = [].
Proof.
  apply (broker_failure_shows_form_again Sample.W_broker_down Sample.K0 []
           (Sample.session Sample.W_one) Sample.session_input
           (Sample.broker "broker") "2c364dde3190121653e64388a607c019"
           (ExternalError "refused") (VStr "broker") (VInt 1883)
           (VStr "user") (VStr "secret") (VStr "homeassistant")).
  - vm_compute; reflexivity.
  - vm_compute; reflexivity.
  - reflexivity.
  - reflexivity.
  - reflexivity.
  - reflexivity.
  - reflexivity.
  - reflexivity.
  - reflexivity.
Defined.

Lemma configured_false (entries : list ConfigEntry) (uid : string) :
  configured entries uid = false -> Some uid ∉ (unique_id <$> entries).
Proof.
  intros H Hin. apply list_elem_of_fmap in Hin.
  destruct Hin as (e & He & Hin).
  assert (configured entries uid = true); [|congruence].
  unfold configured. apply existsb_exists. exists e. split.
  - now apply list_elem_of_In.
  - now apply bool_decide_eq_true.
Qed.

(** What a commit of the broker step is made of. *)
Lemma configure_mqtt_commit_inv (W : World) (K : Constants)
    (entries : list ConfigEntry) (user_input : option dict)
    (s s' : ChirpConfigFlow) (title : string) (d o : dict) :
  async_step_configure_mqtt W K entries user_input s
  = (s', Ok (async_create_entry title d o)) ->
  exists ui d0 uid,
    user_input = Some ui /\ _input s = Some d0 /\ d = ui ∪ d0
    /\ generate_unique_id d = Ok uid
    /\ configured entries uid = false
    /\ ChirpToHA W d (_grpc_channel s) = Ok tt
    /\ context_unique_id s' = Some uid
    /\ _input s' = Some d
    /\ calls s' = calls s ++ [Call_ChirpToHA d; Call_mqtt_close]
    /\ title = DEFAULT_NAME K /\ o = default_options K.
Proof.
  destruct user_input as [ui|]; [|intros H; discriminate H].
  unfold async_step_configure_mqtt. unfold_step.
  destruct (_input s) as [d0|] eqn:Hin; [|intros H; discriminate H].
  simpl_flow.
  destruct (generate_unique_id (ui ∪ d0)) as [uid|x] eqn:Hgen; simpl_flow.
  - destruct (configured entries uid) eqn:Hconf;
      [intros H; discriminate H|].
    simpl_flow.
    destruct (ChirpToHA W (ui ∪ d0) (_grpc_channel s)) as [[]|x] eqn:Hb.
    + intros H. injection H as <- <- <- <-.
      exists ui, d0, uid. simpl_flow. rewrite <- app_assoc.
      repeat split; assumption.
    + unfold getitem.
      destruct (ui !! CONF_MQTT_SERVER); [|intros H; discriminate H].
      destruct (ui !! CONF_MQTT_PORT); [|intros H; discriminate H].
      intros H. now apply configure_mqtt_form_not_entry in H.
  - unfold getitem.
    destruct (ui !! CONF_MQTT_SERVER); [|intros H; discriminate H].
    destruct (ui !! CONF_MQTT_PORT); [|intros H; discriminate H].
    intros H. now apply configure_mqtt_form_not_entry in H.
Qed.

(** X8: whatever the broker step is given, the stored unique ids stay
    pairwise distinct: when the step commits, the new entry carries the
    unique id computed from the very data it stores, this id was not among
    the stored ones, the broker had accepted the connection and been
    closed, and the options are the defaults; when it does not commit, the
    entries are what they were. *)
Theorem commit_keeps_unique_ids_distinct (W : World) (K : Constants)
    (entries : list ConfigEntry) (user_input : option dict)
    (s : ChirpConfigFlow) :
  NoDup (unique_id <$> entries) ->
  let '(s', r) := async_step_configure_mqtt W K entries user_input s in
  let entries' := config_flow_finish entries s' r in
  NoDup (unique_id <$> entries')
  /\ (entries' = entries
      \/ exists uid d,
           entries' = entries ++ [ {| unique_id := Some uid; data := d;
                                      options := default_options K |} ]
           /\ generate_unique_id d = Ok uid
           /\ (Some uid ∉ unique_id <$> entries)
           /\ ChirpToHA W d (_grpc_channel s) = Ok tt
           /\ calls s' = calls s ++ [Call_ChirpToHA d; Call_mqtt_close]).
Proof.
  intros Hnd.
  destruct (async_step_configure_mqtt W K entries user_input s)
    as [s' r] eqn:E.
  cbv zeta. destruct r as [[id sch err | reason | title d o] | x];
    try (split; [assumption | now left]).
  apply configure_mqtt_commit_inv in E.
  destruct E as (ui & d0 & uid & -> & Hin & -> & Hgen & Hconf & Hb & Hu
                 & _ & Hcalls & -> & ->).
  apply configured_false in Hconf.
  cbn [config_flow_finish]. rewrite Hu. split.
  - rewrite fmap_app. apply NoDup_app. split; [assumption|]. split.
    + intros u Hu1 Hu2. apply list_elem_of_singleton in Hu2. now subst u.
    + apply NoDup_singleton.
  - right. exists uid, (ui ∪ d0). repeat split; assumption.
Qed.

Lemma commit_keeps_unique_ids_distinct_witness :
  let '(s', r) :=
    async_step_configure_mqtt Sample.W_one Sample.K0 [Sample.entry "other"]
      (Some (Sample.broker "broker")) (Sample.session Sample.W_one) in
  let entries' := config_flow_finish [Sample.entry "other"] s' r in
  NoDup (unique_id <$> entries')
  /\ (entries' = [Sample.entry "other"]
      \/ exists uid d,
           entries'
           = [Sample.entry "other"]
             ++ [ {| unique_id := Some uid; data := d;
                     options := default_options Sample.K0 |} ]
           /\ generate_unique_id d = Ok uid
           /\ (Some uid ∉ unique_id <$> [Sample.entry "other"])
           /\ ChirpToHA Sample.W_one d
                (_grpc_channel (Sample.session Sample.W_one)) = Ok tt
           /\ calls s'
              = calls (Sample.session Sample.W_one)
                ++ [Call_ChirpToHA d; Call_mqtt_close]).
Proof.
  apply (commit_keeps_unique_ids_distinct Sample.W_one Sample.K0
           [Sample.entry "other"] (Some (Sample.broker "broker"))
           (Sample.session Sample.W_one)).
  cbn [fmap list_fmap]. apply NoDup_singleton.
Defined.

Lemma configure_mqtt_form_snd (K : Constants) (user_input : option dict)
    (errors : gmap conf_key error_code) (s1 s2 : ChirpConfigFlow) :
  snd (configure_mqtt_form K user_input errors s1)
  = snd (configure_mqtt_form K user_input errors s2).
Proof.
  unfold configure_mqtt_form, default_or_item. unfold_step.
  destruct user_input as [ui|]; [|reflexivity].
  destruct (not_ (Some ui)); [reflexivity|]. unfold getitem.
  repeat match goal with
         | |- context [ui !! ?k] => destruct (ui !! k)
         end; reflexivity.
Qed.

(** The answer of the broker step depends on the flow only through the
    channel and the input merged with the submission. *)
Lemma configure_mqtt_answer (W : World) (K : Constants)
    (entries : list ConfigEntry) (ui d1 d2 : dict)
    (s1 s2 : ChirpConfigFlow) :
  _input s1 = Some d1 -> _input s2 = Some d2 ->
  ui ∪ d1 = ui ∪ d2 ->
  _grpc_channel s1 = _grpc_channel s2 ->
  snd (async_step_configure_mqtt W K entries (Some ui) s1)
  = snd (async_step_configure_mqtt W K entries (Some ui) s2).
Proof.
  intros H1 H2 Hd Hc.
  unfold async_step_configure_mqtt. unfold_step.
  rewrite H1, H2. simpl_flow. rewrite Hd.
  destruct (generate_unique_id (ui ∪ d2)) as [uid|x]; simpl_flow.
  - destruct (configured entries uid); [reflexivity|]. simpl_flow.
    rewrite Hc.
    destruct (ChirpToHA W (ui ∪ d2) (_grpc_channel s2)) as [[]|x];
      [reflexivity|].
    destruct (getitem ui CONF_MQTT_SERVER); [|reflexivity].
    destruct (getitem ui CONF_MQTT_PORT); [|reflexivity].
    apply configure_mqtt_form_snd.
  - destruct (getitem ui CONF_MQTT_SERVER); [|reflexivity].
    destruct (getitem ui CONF_MQTT_PORT); [|reflexivity].
    apply configure_mqtt_form_snd.
Qed.

(** What any submission to the broker step leaves in the flow. *)
Lemma configure_mqtt_state (W : World) (K : Constants)
    (entries : list ConfigEntry) (ui d : dict) (s : ChirpConfigFlow) :
  _input s = Some d ->
  let s' := fst (async_step_configure_mqtt W K entries (Some ui) s) in
  _input s' = Some (ui ∪ d) /\ _grpc_channel s' = _grpc_channel s.
Proof.
  intros Hin. unfold async_step_configure_mqtt, configure_mqtt_form,
    default_or_item, getitem.
  unfold_step. rewrite Hin. case_step; cbn [fst]; simpl_flow;
    split; reflexivity.
Qed.

(** X9: a submission to the broker step is answered as if the earlier
    submissions to that step had not been made, provided it has every key
    they had: the values merged by an attempt that failed (in whatever
    world) are all overwritten, and the retry succeeds or fails on its own
    values. *)
Theorem broker_retry_forgets_failed_attempt (W1 W2 : World) (K : Constants)
    (entries : list ConfigEntry) (ui1 ui2 : dict) (s : ChirpConfigFlow) :
  dom ui1 ⊆ dom ui2 ->
  snd (async_step_configure_mqtt W2 K entries (Some ui2)
         (fst (async_step_configure_mqtt W1 K entries (Some ui1) s)))
  = snd (async_step_configure_mqtt W2 K entries (Some ui2) s).
Proof.
  intros Hdom. destruct (_input s) as [d|] eqn:Hin.
  - destruct (configure_mqtt_state W1 K entries ui1 d s Hin) as [Hi Hc].
    apply (configure_mqtt_answer W2 K entries ui2 (ui1 ∪ d) d _ s Hi Hin);
      [|exact Hc].
    apply map_eq. intros k. rewrite !lookup_union.
    destruct (ui2 !! k) as [v2|] eqn:E2; [now destruct (ui1 !! k), (d !! k)|].
    assert (ui1 !! k = None) as ->; [|now destruct (d !! k)].
    apply not_elem_of_dom. intros Hk. apply Hdom in Hk.
    apply elem_of_dom in Hk. rewrite E2 in Hk. now destruct Hk.
  - unfold async_step_configure_mqtt at 2. unfold_step. rewrite Hin.
    cbn [fst]. unfold async_step_configure_mqtt. unfold_step.
    now rewrite Hin.
Qed.

Lemma broker_retry_forgets_failed_attempt_witness :
  snd (async_step_configure_mqtt Sample.W_one Sample.K0 []
         (Some (Sample.broker "broker"))
         (fst (async_step_configure_mqtt Sample.W_broker_down Sample.K0 []
                 (Some (Sample.broker "other"))
                 (Sample.session Sample.W_one))))
  = snd (async_step_configure_mqtt Sample.W_one Sample.K0 []
           (Some (Sample.broker "broker")) (Sample.session Sample.W_one)).
Proof.
  apply (broker_retry_forgets_failed_attempt Sample.W_broker_down
           Sample.W_one Sample.K0 [] (Sample.broker "other")
           (Sample.broker "broker") (Sample.session Sample.W_one)).
  apply (bool_decide_unpack _). vm_compute. exact I.
Defined.

(** ** The options flow: what is saved, what is called, resubmission *)

(** The outcomes of a submission to the options flow. *)
Lemma reconfigure_outcomes (W : World) (K : Constants) (e : ConfigEntry)
    (ui : dict) :
  let '(e', r, tr) := reconfigure W K e ui in
  (mqtt_changed ui (data e) = false /\ tr = []
   /\ match options_of ui with
      | Ok od => r = Ok (async_create_entry EmptyString od ∅)
                 /\ e' = {| unique_id := unique_id e; data := data e;
                            options := od |}
      | Raise x => r = Raise x /\ e' = e
      end)
  \/ (mqtt_changed ui (data e) = true
      /\ exists cfg,
           with_mqtt_settings (data e) ui = Ok cfg
           /\ ((tr = [Call_ChirpGrpc (data e)]
                /\ (exists x, ChirpGrpc W (data e) = Raise x)
                /\ r = Ok (init_form K e conn_failed) /\ e' = e)
               \/ (tr = [Call_ChirpGrpc (data e); Call_ChirpToHA cfg]
                   /\ (exists x, ChirpToHA W cfg (Some (data e)) = Raise x)
                   /\ r = Ok (init_form K e conn_failed) /\ e' = e)
               \/ (tr = [Call_ChirpGrpc (data e); Call_ChirpToHA cfg;
                         Call_mqtt_close; Call_grpc_close]
                   /\ ChirpGrpc W (data e) = Ok tt
                   /\ ChirpToHA W cfg (Some (data e)) = Ok tt
                   /\ match options_of ui with
                      | Ok od =>
                          r = Ok (async_create_entry EmptyString od ∅)
                          /\ e' = {| unique_id := unique_id e; data := cfg;
                                     options := od |}
                      | Raise x =>
                          r = Raise x
                          /\ e' = {| unique_id := unique_id e; data := cfg;
                                     options := options e |}
                      end)))
  \/ (mqtt_changed ui (data e) = true /\ tr = []
      /\ (exists x, with_mqtt_settings (data e) ui = Raise x)
      /\ e' = e
      /\ forall title d o, r <> Ok (async_create_entry title d o)).
Proof.
  unfold reconfigure.
  destruct (mqtt_changed ui (data e)) eqn:Hc.
  - destruct (with_mqtt_settings (data e) ui) as [cfg | x] eqn:Hcfg.
    + rewrite (init_changed W K e [] ui cfg Hc Hcfg).
      destruct (ChirpGrpc W (data e)) as [[] | y] eqn:Hg;
        [destruct (ChirpToHA W cfg (Some (data e))) as [[] | y] eqn:Hb |].
      * destruct (options_of ui) eqn:Ho;
          cbn [app options_flow_finish config_entry options_calls];
          right; left; (split; [reflexivity|]); exists cfg;
          (split; [reflexivity|]); right; right; rewrite ?Ho;
          repeat split; assumption.
      * cbn [app options_flow_finish config_entry options_calls].
        right; left. split; [reflexivity|]. exists cfg.
        split; [reflexivity|]. right; left. repeat split. now exists y.
      * cbn [app options_flow_finish config_entry options_calls].
        right; left. split; [reflexivity|]. exists cfg.
        split; [reflexivity|]. left. repeat split. now exists y.
    + unfold async_step_init, test_mqtt_connection. unfold_step. simpl_flow.
      rewrite Hc, Hcfg. unfold getitem.
      destruct (ui !! CONF_MQTT_SERVER);
        [destruct (ui !! CONF_MQTT_PORT) |];
        try rewrite bool_decide_eq_false_2 by apply insert_non_empty;
        cbn [options_flow_finish config_entry options_calls];
        right; right; (split; [reflexivity|]);
        (split; [reflexivity|]); (split; [now exists x|]);
        (split; [reflexivity|]); intros title d o H; discriminate H.
  - rewrite (init_unchanged W K e [] ui Hc).
    destruct (options_of ui) eqn:Ho;
      cbn [options_flow_finish config_entry options_calls];
      left; rewrite ?Ho; repeat split.
Qed.

(** X10: when a submission to the options flow is accepted, the options of
    the entry afterwards are the six submitted options and nothing else:
    the options stored before are replaced as a whole, and neither the
    broker settings nor any other key of the submission gets into them. *)
Theorem accepted_options_are_the_six_submitted (W : World) (K : Constants)
    (e e' : ConfigEntry) (ui : dict) (title : string) (od o : dict)
    (tr : list event) :
  reconfigure W K e ui = (e', Ok (async_create_entry title od o), tr) ->
  options e' = od
  /\ forall k, options e' !! k
               = if bool_decide (k ∈ options_keys) then ui !! k else None.
Proof.
  intros E. pose proof (reconfigure_outcomes W K e ui) as H.
  rewrite E in H.
  assert (Hod : options_of ui = Ok od /\ options e' = od).
  { destruct H as [(_ & _ & H) | [(_ & cfg & _ & H) | (_ & _ & _ & _ & H)]].
    - destruct (options_of ui) as [od'|x]; destruct H as [Hr ->];
        [|discriminate Hr].
      injection Hr as _ <- _. split; reflexivity.
    - destruct H as [(_ & _ & Hr & _) | [(_ & _ & Hr & _) | (_ & _ & _ & H)]];
        try discriminate Hr.
      destruct (options_of ui) as [od'|x]; destruct H as [Hr ->];
        [|discriminate Hr].
      injection Hr as _ <- _. split; reflexivity.
    - exfalso. now apply (H title od o). }
  destruct Hod as [Hod ->]. split; [reflexivity|].
  intros k. now apply options_of_lookup.
Qed.

Lemma accepted_options_are_the_six_submitted_witness :
  let e' := {| unique_id := unique_id (Sample.entry "broker");
               data := data (Sample.entry "broker");
               options := sample_options "debug" |} in
  options e' = sample_options "debug"
  /\ forall k,
       options e' !! k
       = if bool_decide (k ∈ options_keys)
         then Sample.submission "broker" "debug" !! k else None.
Proof.
  apply (accepted_options_are_the_six_submitted Sample.W_one Sample.K0
           (Sample.entry "broker")
           {| unique_id := unique_id (Sample.entry "broker");
              data := data (Sample.entry "broker");
              options := sample_options "debug" |}
           (Sample.submission "broker" "debug")
           EmptyString (sample_options "debug") ∅ []).
  vm_compute; reflexivity.
Defined.

(** X11: a submission that the options flow has accepted can be submitted
    again at no cost: the second time, in whatever world, the six broker
    fields are found identical to the stored ones, no call is made, and
    the entry stays as the first submission left it. *)
Theorem accepted_submission_is_idempotent (W W' : World) (K : Constants)
    (e e' : ConfigEntry) (ui : dict) (title : string) (od o : dict)
    (tr : list event) :
  reconfigure W K e ui = (e', Ok (async_create_entry title od o), tr) ->
  reconfigure W' K e' ui = (e', Ok (async_create_entry title od o), []).
Proof.
  intros E. pose proof (reconfigure_outcomes W K e ui) as H.
  rewrite E in H.
  assert (Hs : options_of ui = Ok od /\ title = EmptyString /\ o = ∅
               /\ options e' = od
               /\ mqtt_changed ui (data e') = false).
  { destruct H as [(Hc & _ & H) | [(_ & cfg & Hcfg & H) | (_ & _ & _ & _ & H)]].
    - destruct (options_of ui) as [od'|x]; destruct H as [Hr ->];
        [|discriminate Hr].
      injection Hr as <- <- <-. repeat split. exact Hc.
    - destruct H as [(_ & _ & Hr & _) | [(_ & _ & Hr & _) | (_ & _ & _ & H)]];
        try discriminate Hr.
      destruct (options_of ui) as [od'|x]; destruct H as [Hr ->];
        [|discriminate Hr].
      injection Hr as <- <- <-. repeat split. cbn [data].
      apply mqtt_unchanged_identical. intros k Hk.
      rewrite (with_mqtt_settings_lookup _ _ _ k Hcfg).
      now rewrite bool_decide_eq_true_2.
    - exfalso. now apply (H title od o). }
  destruct Hs as (Hod & -> & -> & Ho & Hc).
  unfold reconfigure. rewrite (init_unchanged W' K e' [] ui Hc), Hod.
  cbn [options_flow_finish config_entry options_calls].
  destruct e' as [u d' o']. cbn [options] in Ho. subst o'. reflexivity.
Qed.

Lemma accepted_submission_is_idempotent_witness :
  reconfigure Sample.W_broker_down Sample.K0
    {| unique_id := unique_id (Sample.entry "other");
       data := data (Sample.entry "broker");
       options := sample_options "debug" |}
    (Sample.submission "broker" "debug")
  = ({| unique_id := unique_id (Sample.entry "other");
        data := data (Sample.entry "broker");
        options := sample_options "debug" |},
     Ok (async_create_entry EmptyString (sample_options "debug") ∅), []).
Proof.
  apply (accepted_submission_is_idempotent Sample.W_one Sample.W_broker_down
           Sample.K0 (Sample.entry "other")
           {| unique_id := unique_id (Sample.entry "other");
              data := data (Sample.entry "broker");
              options := sample_options "debug" |}
           (Sample.submission "broker" "debug") EmptyString
           (sample_options "debug") ∅
           [Call_ChirpGrpc (data (Sample.entry "other"));
            Call_ChirpToHA (data (Sample.entry "broker"));
            Call_mqtt_close; Call_grpc_close]).
  vm_compute; reflexivity.
Defined.

(** X12: the calls of a submission to the options flow are none, or the
    opening of the directory client alone, or that and the broker check,
    or these two and the two closings.  The clients are closed only when
    the broker has accepted the connection; when the broker check raises,
    the directory client that was opened for it is left unclosed. *)
Theorem options_flow_closes_only_on_success (W : World) (K : Constants)
    (e : ConfigEntry) (ui : dict) :
  let '(e', r, tr) := reconfigure W K e ui in
  (tr = []
   \/ tr = [Call_ChirpGrpc (data e)]
   \/ exists cfg,
        with_mqtt_settings (data e) ui = Ok cfg
        /\ (tr = [Call_ChirpGrpc (data e); Call_ChirpToHA cfg]
            \/ tr = [Call_ChirpGrpc (data e); Call_ChirpToHA cfg;
                     Call_mqtt_close; Call_grpc_close]))
  /\ (Call_grpc_close ∈ tr ->
      exists cfg, ChirpToHA W cfg (Some (data e)) = Ok tt /\ data e' = cfg)
  /\ (forall cfg x,
        Call_ChirpToHA cfg ∈ tr ->
        ChirpToHA W cfg (Some (data e)) = Raise x ->
        Call_ChirpGrpc (data e) ∈ tr
        /\ (Call_grpc_close ∉ tr) /\ (Call_mqtt_close ∉ tr)).
Proof.
  pose proof (reconfigure_outcomes W K e ui) as H.
  destruct (reconfigure W K e ui) as [[e' r] tr].
  destruct H as [(_ & -> & _) | [(_ & cfg & Hcfg & H) | (_ & -> & _)]].
  - split; [now left|]. split.
    + intros H. now apply elem_of_nil in H.
    + intros cfg x H. now apply elem_of_nil in H.
  - destruct H as [(-> & _) | [(-> & _) | (-> & _ & Hb & H)]].
    + split; [right; now left|]. split.
      * intros H. inv_calls H.
      * intros cfg' x H. inv_calls H.
    + split; [right; right; exists cfg; split; [assumption | now left]|].
      split.
      * intros H. inv_calls H.
      * intros cfg' x H _. split; [in_calls|].
        split; intros H'; inv_calls H'.
    + split; [right; right; exists cfg; split; [assumption | now right]|].
      split.
      * intros _. exists cfg. split; [assumption|].
        destruct (options_of ui); destruct H as [_ ->]; reflexivity.
      * intros cfg' x Hin Hx. inv_calls Hin. congruence.
  - split; [now left|]. split.
    + intros H. now apply elem_of_nil in H.
    + intros cfg x H. now apply elem_of_nil in H.
Qed.

Lemma options_of_Raise (ui : dict) (x : exn) :
  options_of ui = Raise x ->
  exists k, k ∈ options_keys /\ x = KeyError k /\ ui !! k = None.
Proof.
  unfold options_of, res_bind, getitem, options_keys.
  repeat match goal with
         | |- context [ui !! ?k] =>
             destruct (ui !! k) eqn:?;
             [| intros H; injection H as <-; exists k;
                split; [in_calls | split; [reflexivity | assumption]]]
         end.
  intros H. discriminate H.
Qed.

(** X13: the data are replaced before the options are read.  When a
    submission changes a broker field and passes the validation but lacks
    one of the six options, the step raises [KeyError] for that option
    after the data of the entry have taken the submitted broker settings;
    the options of the entry stay. *)
Theorem missing_option_after_data_update (W : World) (K : Constants)
    (e : ConfigEntry) (ui cfg : dict) (x : exn) :
  broker_field_differs ui (data e) ->
  with_mqtt_settings (data e) ui = Ok cfg ->
  ChirpGrpc W (data e) = Ok tt ->
  ChirpToHA W cfg (Some (data e)) = Ok tt ->
  options_of ui = Raise x ->
  reconfigure W K e ui
  = ({| unique_id := unique_id e; data := cfg; options := options e |},
     Raise x,
     [Call_ChirpGrpc (data e); Call_ChirpToHA cfg; Call_mqtt_close;
      Call_grpc_close])
  /\ exists k, k ∈ options_keys /\ x = KeyError k /\ ui !! k = None.
Proof.
  intros Hd Hcfg Hg Hb Ho. apply mqtt_changed_iff in Hd.
  split; [|now apply options_of_Raise].
  unfold reconfigure. rewrite (init_changed W K e [] ui cfg Hd Hcfg).
  now rewrite Hg, Hb, Ho.
Qed.

Lemma missing_option_after_data_update_witness :
  reconfigure Sample.W_one Sample.K0 (Sample.entry "other")
    (delete CONF_OPTIONS_LOG_LEVEL (Sample.submission "broker" "info"))
  = ({| unique_id := unique_id (Sample.entry "other");
        data := data (Sample.entry "broker");
        options := options (Sample.entry "other") |},
     Raise (KeyError CONF_OPTIONS_LOG_LEVEL),
     [Call_ChirpGrpc (data (Sample.entry "other"));
      Call_ChirpToHA (data (Sample.entry "broker"));
      Call_mqtt_close; Call_grpc_close])
  /\ exists k, k ∈ options_keys
               /\ KeyError CONF_OPTIONS_LOG_LEVEL = KeyError k
               /\ delete CONF_OPTIONS_LOG_LEVEL
                    (Sample.submission "broker" "info") !! k = None.
Proof.
  apply (missing_option_after_data_update Sample.W_one Sample.K0
           (Sample.entry "other")
           (delete CONF_OPTIONS_LOG_LEVEL (Sample.submission "broker" "info"))
           (data (Sample.entry "broker"))
           (KeyError CONF_OPTIONS_LOG_LEVEL)).
  - exists CONF_MQTT_SERVER. split; [in_calls | vm_compute; reflexivity].
  - vm_compute; reflexivity.
  - reflexivity.
  - reflexivity.
  - vm_compute; reflexivity.
Defined.

(** ** The tenant step: a selection that the listing does not have *)

(** X14: when there are several tenants and the selection submitted is
    not a name of the listing, the tenant step raises [KeyError]; by then
    the selection has been merged into the accumulated input, and no call
    has been made. *)
Theorem unknown_tenant_raises_after_merge (W : World) (K : Constants)
    (entries : list ConfigEntry) (s : ChirpConfigFlow) (tenants : listing)
    (ui d : dict) (v : value) :
  _tenants_list s = Some tenants ->
  size tenants <> 1%nat ->
  _input s = Some d ->
  ui !! CONF_TENANT = Some v ->
  (forall name, v = VStr name -> tenants !! name = None) ->
  async_step_select_tenant W K entries (Some ui) s
  = (set_input (Some (ui ∪ d)) s, Raise (KeyError_name v)).
Proof.
  intros Ht Hn Hin Hui Hv.
  unfold async_step_select_tenant. unfold_step. rewrite Ht.
  pose proof (effective_selection_many CONF_TENANT tenants (Some ui) Hn)
    as E.
  unfold effective_selection in E. rewrite E.
  rewrite Hin. simpl_flow. unfold getitem. rewrite Hui.
  unfold listing_item. destruct v as [name | n | b]; try reflexivity.
  now rewrite (Hv name eq_refl).
Qed.

Lemma unknown_tenant_raises_after_merge_witness :
  async_step_select_tenant Sample.W_two Sample.K0 []
    (Some {[CONF_TENANT := VStr "Gamma"]})
    (Sample.session Sample.W_two)
  = (set_input
       (Some ({[CONF_TENANT := VStr "Gamma"]}
              ∪ <[CONF_APPLICATION_ID := VStr ""]> Sample.endpoint))
       (Sample.session Sample.W_two),
     Raise (KeyError_name (VStr "Gamma"))).
Proof.
  apply (unknown_tenant_raises_after_merge Sample.W_two Sample.K0 []
           (Sample.session Sample.W_two) Sample.two_tenants
           {[CONF_TENANT := VStr "Gamma"]}
           (<[CONF_APPLICATION_ID := VStr ""]> Sample.endpoint)
           (VStr "Gamma")).
  - vm_compute; reflexivity.
  - vm_compute. discriminate.
  - vm_compute; reflexivity.
  - reflexivity.
  - intros name H. injection H as <-. vm_compute; reflexivity.
Defined.

(** ** The options form sent back as presented *)

Lemma untouched_init_form (K : Constants) (e : ConfigEntry)
    (errors : gmap conf_key error_code) (k : conf_key) :
  untouched (init_form K e errors) !! k
  = match k with
    | CONF_MQTT_SERVER =>
        Some (get_default (data e) k (DEFAULT_MQTT_SERVER K))
    | CONF_MQTT_PORT => Some (get_default (data e) k (DEFAULT_MQTT_PORT K))
    | CONF_MQTT_USER => Some (get_default (data e) k (DEFAULT_MQTT_USER K))
    | CONF_MQTT_PWD => Some (get_default (data e) k (DEFAULT_MQTT_PWD K))
    | CONF_MQTT_DISC => Some (get_default (data e) k (DEFAULT_MQTT_DISC K))
    | CONF_MQTT_CHIRPSTACK_PREFIX =>
        Some (get_default (data e) k (DEFAULT_MQTT_CHIRPSTACK_PREFIX K))
    | CONF_OPTIONS_START_DELAY =>
        Some (get_default (options e) k (DEFAULT_OPTIONS_START_DELAY K))
    | CONF_OPTIONS_RESTORE_AGE =>
        Some (get_default (options e) k (DEFAULT_OPTIONS_RESTORE_AGE K))
    | CONF_OPTIONS_DEBUG_PAYLOAD =>
        Some (get_default (options e) k (DEFAULT_OPTIONS_DEBUG_PAYLOAD K))
    | CONF_OPTIONS_LOG_LEVEL =>
        Some (get_default (options e) k (DEFAULT_OPTIONS_LOG_LEVEL K))
    | CONF_OPTIONS_ONLINE_PER_DEVICE =>
        Some (get_default (options e) k
                (DEFAULT_OPTIONS_ONLINE_PER_DEVICE K))
    | CONF_OPTIONS_EXPIRE_AFTER =>
        Some (get_default (options e) k (DEFAULT_OPTIONS_EXPIRE_AFTER K))
    | _ => None
    end.
Proof.
  unfold untouched, init_form.
  cbn [map field_key field_default list_to_map foldr uncurry fst snd].
  destruct k;
    repeat (first [ rewrite lookup_insert_eq; reflexivity
                  | rewrite lookup_insert_ne by discriminate ]);
    apply lookup_empty.
Qed.

Lemma get_default_present (d : dict) (k : conf_key) (dflt : value) :
  is_Some (d !! k) -> Some (get_default d k dflt) = d !! k.
Proof. intros [v H]. unfold get_default. now rewrite H. Qed.

(** X15: for an entry whose data have the six broker settings and whose
    options are the six options, sending the options form back as it was
    presented is a no-op: no call is made and the entry is what it was. *)
Theorem untouched_options_form_is_a_no_op (W : World) (K : Constants)
    (e : ConfigEntry) (errors : gmap conf_key error_code) :
  has_keys (data e) mqtt_keys ->
  has_keys (options e) options_keys ->
  (forall k, k ∉ options_keys -> options e !! k = None) ->
  reconfigure W K e (untouched (init_form K e errors))
  = (e, Ok (async_create_entry EmptyString (options e) ∅), []).
Proof.
  intros Hm Ho Hrest.
  set (ui := untouched (init_form K e errors)).
  assert (Hc : mqtt_changed ui (data e) = false).
  { apply mqtt_unchanged_identical. intros k Hk.
    unfold has_keys in Hm. rewrite Forall_forall in Hm.
    pose proof (Hm k Hk) as Hs.
    unfold ui. rewrite untouched_init_form. unfold mqtt_keys in Hk.
    inv_keys Hk; now apply get_default_present. }
  assert (Hui : forall k, k ∈ options_keys -> ui !! k = options e !! k).
  { intros k Hk. unfold has_keys in Ho. rewrite Forall_forall in Ho.
    pose proof (Ho k Hk) as Hs.
    unfold ui. rewrite untouched_init_form. unfold options_keys in Hk.
    inv_keys Hk; now apply get_default_present. }
  assert (Hk : has_keys ui options_keys).
  { unfold has_keys. rewrite Forall_forall. intros k Hk.
    rewrite (Hui k Hk). unfold has_keys in Ho. rewrite Forall_forall in Ho.
    now apply Ho. }
  destruct (has_options_keys_options ui Hk) as [od Hod].
  assert (od = options e) as ->.
  { apply map_eq. intros k. rewrite (options_of_lookup ui od k Hod).
    destruct (decide (k ∈ options_keys)) as [Hin | Hout].
    - rewrite bool_decide_eq_true_2 by assumption. now apply Hui.
    - rewrite bool_decide_eq_false_2 by assumption.
      symmetry. now apply Hrest. }
  unfold reconfigure. rewrite (init_unchanged W K e [] ui Hc), Hod.
  cbn [options_flow_finish config_entry options_calls].
  now destruct e.
Qed.

Lemma untouched_options_form_is_a_no_op_witness :
  reconfigure Sample.W_broker_down Sample.K0 (Sample.entry "broker")
    (untouched (init_form Sample.K0 (Sample.entry "broker") conn_failed))
  = (Sample.entry "broker",
     Ok (async_create_entry EmptyString (options (Sample.entry "broker")) ∅),
     []).
Proof.
  apply (untouched_options_form_is_a_no_op Sample.W_broker_down Sample.K0
           (Sample.entry "broker") conn_failed).
  - vm_compute. repeat constructor; eexists; reflexivity.
  - vm_compute. repeat constructor; eexists; reflexivity.
  - intros k Hk. destruct k; try (vm_compute; reflexivity);
      exfalso; apply Hk; unfold options_keys; in_calls.
Defined.

(** X16: an entry whose data lack one of the six broker settings is
    validated anew at every submission that has the fields of the form,
    edited or not, because an absent setting differs from any submitted
    value; once such a submission is accepted the setting is stored. *)
Theorem absent_setting_always_validates (W : World) (K : Constants)
    (e : ConfigEntry) (ui : dict) (k : conf_key) :
  k ∈ mqtt_keys ->
  data e !! k = None ->
  has_keys ui mqtt_keys ->
  let '(e', r, tr) := reconfigure W K e ui in
  validation_invoked e tr
  /\ forall title od o,
       r = Ok (async_create_entry title od o) ->
       is_Some (data e' !! k) /\ data e' !! k = ui !! k.
Proof.
  intros Hk Hnone Hm.
  assert (Hs : is_Some (ui !! k)).
  { unfold has_keys in Hm. rewrite Forall_forall in Hm. now apply Hm. }
  assert (Hc : mqtt_changed ui (data e) = true).
  { apply mqtt_changed_iff. exists k. split; [assumption|].
    unfold get_ne. rewrite Hnone. destruct Hs as [v ->]. reflexivity. }
  pose proof (reconfigure_outcomes W K e ui) as H.
  destruct (reconfigure W K e ui) as [[e' r] tr].
  destruct H as [(Hc' & _) | [(_ & cfg & Hcfg & H) | (_ & _ & [x Hx] & _)]].
  - congruence.
  - unfold validation_invoked.
    destruct H as [(-> & _ & -> & _) | [(-> & _ & -> & _)
                                       | (-> & _ & _ & H)]].
    + split; [in_calls|]. intros title od o Hr. discriminate Hr.
    + split; [in_calls|]. intros title od o Hr. discriminate Hr.
    + split; [in_calls|]. intros title od o Hr.
      destruct (options_of ui); destruct H as [Hr' ->];
        [|congruence].
      cbn [data]. rewrite (with_mqtt_settings_lookup _ _ _ k Hcfg).
      rewrite bool_decide_eq_true_2 by assumption. now split.
  - destruct (has_mqtt_keys_settings (data e) ui Hm) as [cfg Hcfg].
    congruence.
Qed.

Lemma absent_setting_always_validates_witness :
  let e := {| unique_id := unique_id (Sample.entry "broker");
              data := delete CONF_MQTT_CHIRPSTACK_PREFIX
                        (data (Sample.entry "broker"));
              options := options (Sample.entry "broker") |} in
  let '(e', r, tr) :=
    reconfigure Sample.W_one Sample.K0 e
      (Sample.submission "broker" "info") in
  validation_invoked e tr
  /\ forall title od o,
       r = Ok (async_create_entry title od o) ->
       is_Some (data e' !! CONF_MQTT_CHIRPSTACK_PREFIX)
       /\ data e' !! CONF_MQTT_CHIRPSTACK_PREFIX
          = Sample.submission "broker" "info" !! CONF_MQTT_CHIRPSTACK_PREFIX.
Proof.
  apply (absent_setting_always_validates Sample.W_one Sample.K0
           {| unique_id := unique_id (Sample.entry "broker");
              data := delete CONF_MQTT_CHIRPSTACK_PREFIX
                        (data (Sample.entry "broker"));
              options := options (Sample.entry "broker") |}
           (Sample.submission "broker" "info")
           CONF_MQTT_CHIRPSTACK_PREFIX).
  - unfold mqtt_keys. in_calls.
  - vm_compute; reflexivity.
  - vm_compute. repeat constructor; eexists; reflexivity.
Defined.
